(* ===== verification/_CoqProject ===== *)
-Q . S2P
Prelude.v
Binary64.v
Matchup.v
SizeModifier.v
Random.v
CPythonRandom.v
BugModel.v
Power.v
Battle.v
Routes.v
UserModel.v
Species.v
Main.v
AppFactory.v
