(* ===== verification/Prelude.v ===== *)
(** * BugBrawl: a verification development of the battle arena

    The repository (codemasterteej/BugBrawl) is a small Flask application in
    which users submit bugs (insects) with combat statistics and make them
    fight.  Its domain logic is the battle engine of
    [src/app/routes/battles.py]; around it sit the request handlers of the
    [battles] blueprint, the homepage and dashboard of
    [src/app/routes/main.py], the ORM models of [src/app/models.py], the
    application factory [src/app/__init__.py] and the entry point
    [src/run.py].  The development models each of them as the source is
    written, including where the source fails: most of what it says is
    that the arena, as committed, cannot record a battle.

    ** The program and how its parts interact

    - Matchup table ([battles.py] 62-91, 119-126): [MATCHUP_MATRIX] and
      [get_matchup_multiplier], a case-insensitive lookup with fallback
      1.0.  Nothing calls it.
    - Size modifier resolver ([battles.py] 93-117, 128-194): the literals
      and [get_size_multipliers], which raises [NameError] at its first
      statement (line 136 reads [red_corner_bug], bound nowhere).
      Nothing calls it.
    - Random source: [random.uniform(0.9, 1.1)] on the module's global
      generator, its state threaded explicitly.
    - Power calculator ([battles.py] 265-290): weighted stats times the
      noise, in binary64.  It never consults the matchup table or the
      size resolver.
    - Battle engine ([battles.py] 196-262): [simulate_battle] raises
      [UnboundLocalError] at line 220, where its first statement reads
      the local [winner] before any assignment; it draws nothing and
      writes nothing.
    - Request handlers ([battles.py] 16-60): [list_battles], [view_battle]
      and [new_battle] behind Flask-Login's [login_required], dispatched
      by Flask's method rules, on one (session, generator) state; a valid
      submission reaches the engine and is answered 500.
    - Models ([models.py]): [Bug] with its methods [win_rate],
      [power_level], [generate_flair] and [__repr__]; the trailing comma
      of line 87 makes the class attribute [Bug.wins] a tuple, so the
      table has no [wins] column and every [win_rate] and
      [generate_flair] of a stored bug raises [TypeError];
      [User.set_password], [check_password] and the loader [load_user];
      [Species.add_to_dict] (raises [AttributeError] on [self.order]);
      [Battle.__repr__].
    - Homepage and dashboard ([main.py]): the homepage raises
      [ArgumentError] at line 23 ([desc] of the tuple [Bug.wins]); the
      dashboard raises [NameError] at line 48 ([Tournament]) and, with
      that name supplied, [AttributeError] at line 54 ([Bug.HP]).
    - Application factory and entry point: the imports, [create_app] and
      [run.py]; in this repository [run.py] stops with [ImportError] on
      [from config import Config]; with every module present the
      reloader of [debug=True] runs the script twice.

    ** Files, in dependency order

    - [Prelude.v] (this file): Python values (exceptions as the sum type
      [PyResult] with a bind notation in [py_scope]; [str.lower];
      truthiness; [dict.get] on literal dicts; [int(s)] and [str(n)] with
      the round trip [py_int_str]; round-half-even to an integer with its
      [Proper] instance), the hint databases [bugbrawl] and
      [bugbrawl_rw] and the tactics [case_if_in] and [qeval].
    - [Binary64.v] (Module [Binary64]): IEEE 754 binary64 rounding to
      nearest, ties to even, as the function [fl] on rationals, with its
      monotonicity as the instance [fl_le : Proper (Qle ==> Qle) fl].
    - [Matchup.v] (Module [Matchup]): the matrix literal, the lookup, an
      enumerated design table and the refinement theorem between them.
    - [SizeModifier.v] (Module [SizeModifier]): the literals and the
      raising [get_size_multipliers].
    - [Random.v]: the interface [RandomSource] (CPython's [random()] on an
      explicit state) with its law [RandomSourceLaws], [uniform] written
      as CPython writes it, and a replayable stub instance.
    - [CPythonRandom.v] (Module [CPythonRandom]): CPython's [random()]
      from two 32-bit words of a [WordSource], and the instance
      [CPythonSource] of the interface with its law.
    - [BugModel.v] (Module [BugModel]): the [Bug] record, the class
      attribute of line 87 and the methods.
    - [Power.v] (Module [Power]): the power calculator, proved against the
      interface only.
    - [Battle.v] (Module [Battle]): the [Battle] row, the session (a stdpp
      [gmap] of bugs by id and the committed rows) and [simulate_battle].
    - [Routes.v] (Module [Routes]): requests, responses and flashes,
      [login_required], the three views, Flask's dispatch [handle] and
      the request sequence [serve].
    - [UserModel.v] (Module [UserModel]): the [User] record, the hashing
      interface [PasswordHasher] with its laws, the password methods and
      the loader.
    - [Species.v] (Module [Species]): the columns and [add_to_dict].
    - [Main.v] (Module [Main]): the main blueprint's URL map and its two
      views over an environment saying whether [Tournament] is bound.
    - [AppFactory.v] (Module [AppFactory]): the package imports,
      [create_app] and [run.py] over an environment of modules.

    ** What the theorems show

    - The arena records nothing: a valid submission is answered 500 with
      the session and the generator untouched, and any sequence of
      requests to the battles blueprint leaves both exactly as they were
      and never redirects to a battle page ([Routes.v]).
    - The handlers' other paths: the red id is read under the key
      [' red_corner_bug_id'] (leading space), so every form without that
      exact key is refused; missing, non-integer or zero ids and equal ids
      are refused with their flashes; an anonymous user gets the login
      redirect (with [next]), the automatic [OPTIONS] answer or 405;
      unknown bugs give 404; an authenticated GET lists every bug once.
    - The power: with non-negative stats it lies between
      [fl(base * 0.9)] and [fl(base * 1.1)], both ends included and the
      upper one attained; it ignores attack types, defense types and
      sizes.  [uniform(a, b)] lies in [[a, b]] for float end points whose
      difference is exact.
    - The matchup lookup refines the design table.
    - [generate_flair] never says "Dominator"; on a stored bug it and
      [win_rate] raise [TypeError].
    - No page of the main blueprint ever renders.

    ** Numbers and bounds

    Python floats are binary64.  They are modelled as the rationals
    [Binary64.fl] returns: the nearest multiple of [2^(e-52)] for the
    binade [e] of the value, ties to even, subnormals down to [2^-1074].
    Overflow is not modelled: the theorems on the power hold for stats
    whose weighted sum stays below [2^1024] (the stats of the
    specification are 1 to 100); above that Python's [int * float]
    raises [OverflowError] or gives [inf].  Every float literal is [fl] of its
    decimal text ([0.9] is [fl (9#10)]), every [int * float] converts
    the [int] with [fl] first, and every float operation rounds its exact
    result with [fl], which is what IEEE 754 prescribes for [+], [-],
    [*] and [/].  CPython's [random()] is exact: a 53-bit integer times
    [2^-53].  Python [int]s (stats, counters, ids, page numbers) are
    unbounded and modelled as [Z]; the 32-bit words of the generator
    are [Z]s with the bound [0 <= w < 2^32] as a law.  Every function is
    structurally recursive, so no fuel is needed.

    ** Not modelled

    - The dead code of the engine: lines 226-262 of [simulate_battle]
      (after the raise at line 220; they would also raise [NameError] on
      [bug1] at line 233 and [bug2_power] at line 235) and lines 138-194
      of [get_size_multipliers] (after the raise at line 136).
    - The module-level failures that stop the handlers from ever being
      registered.  [battles.py] line 39 is indented inconsistently, and
      [models.py] line 144 too, so neither module compiles
      ([AppFactory.v] models both as [SyntaxError]).  Once the
      indentation is repaired, [battles.py] would still stop at line 128
      on the unimported [Optional], and [models.py] at line 140 on
      [db.Integer(5)].  The handlers of [Routes.v] and [Main.v] and the
      methods of [BugModel.v], [UserModel.v] and [Species.v] are modelled
      as they run once the two modules load.  None of their statements
      is changed for that.
    - The Mersenne Twister's state update (C code of
      [_randommodule.c]): the theorems hold for every word source whose
      words are below 2^32.
    - [generate_battle_narrative]: called at line 244, which is never
      reached, and defined nowhere in the repository.
    - Templates and HTTP encoding: a response carries the data passed to
      [render_template] or the redirect target; cookies are not modelled.
    - Flask's and SQLAlchemy's internals behind [create_app] and
      [db.create_all()]; the [auth] and [bugs] blueprints and the
      [config] module, which are not in the repository.
    - ORM relationships and backrefs, which only declare how rows are
      loaded.
    - Lines 56-71 of the dashboard: line 54 reads [Bug.HP], which the
      [Bug] model does not have, so they are reached in no environment.
    - The [User] table and the user count of the dashboard, the
      [User.bugs] relationship (models.py 24-25), module docstrings and
      the imports of [battles.py] and [models.py], which bind names only. *)

From Stdlib Require Import ZArith QArith Qround String Ascii List Lia Lqa.
From Stdlib Require Import Morphisms Decimal DecimalString DecimalPos.
Import ListNotations.

Declare Scope py_scope.
Delimit Scope py_scope with py.

Create HintDb bugbrawl.
Create Rewrite HintDb bugbrawl_rw.

(** ** Exceptions *)

(** The exceptions the modelled code raises.  [NotFound] is Flask's
    [abort(404)] raised by [get_or_404]; [ImportError] stands for its
    subclass [ModuleNotFoundError] and [SyntaxError] for its subclass
    [IndentationError]; [ArgumentError] is SQLAlchemy's
    [sqlalchemy.exc.ArgumentError]. *)
Inductive PyExn : Type :=
| ValueError
| IndexError
| NameError
| TypeError
| AttributeError
| KeyError
| ImportError
| SyntaxError
| UnboundLocalError
| ArgumentError
| NotFound.

Inductive PyResult (A : Type) : Type :=
| Ok (a : A)
| Raise (e : PyExn).
Arguments Ok {A} a.
Arguments Raise {A} e.

Definition py_bind {A B : Type} (r : PyResult A) (k : A -> PyResult B)
  : PyResult B :=
  match r with
  | Ok a => k a
  | Raise e => Raise e
  end.

Notation "x <- c1 ;; c2" := (py_bind c1 (fun x => c2))
  (at level 100, c1 at next level, right associativity) : py_scope.

(** ** Strings *)

(** [str.lower] on ASCII text: 'A'..'Z' become 'a'..'z'. *)
Definition ascii_lower (c : ascii) : ascii :=
  let n := nat_of_ascii c in
  if (65 <=? n)%nat && (n <=? 90)%nat then ascii_of_nat (n + 32) else c.

Fixpoint py_lower (s : string) : string :=
  match s with
  | EmptyString => EmptyString
  | String c s' => String (ascii_lower c) (py_lower s')
  end.

(** Truthiness of an [Optional[str]]: [None] and [''] are falsy. *)
Definition py_truthy (o : option string) : bool :=
  match o with
  | None => false
  | Some EmptyString => false
  | Some _ => true
  end.

(** [(s or '')] for an [Optional[str]]. *)
Definition py_or_empty (o : option string) : string :=
  match o with Some s => s | None => EmptyString end.

(** ** [int(s)] and [str(n)] *)

(** The characters [int()] skips around a number: space, \t, \n, \v,
    \f, \r and the separators \x1c-\x1f. *)
Definition is_space (c : ascii) : bool :=
  let n := nat_of_ascii c in
  (n =? 32)%nat || ((9 <=? n)%nat && (n <=? 13)%nat) || ((28 <=? n)%nat && (n <=? 31)%nat).

Definition digit_val (c : ascii) : option Z :=
  let n := nat_of_ascii c in
  if (48 <=? n)%nat && (n <=? 57)%nat then Some (Z.of_nat (n - 48)) else None.

Fixpoint lstrip (s : string) : string :=
  match s with
  | EmptyString => EmptyString
  | String c s' => if is_space c then lstrip s' else s
  end.

Fixpoint rstrip (s : string) : string :=
  match s with
  | EmptyString => EmptyString
  | String c s' =>
      let r := rstrip s' in
      match r with
      | EmptyString => if is_space c then EmptyString else String c EmptyString
      | _ => String c r
      end
  end.

(** Digits with single underscores between them, accumulated from the
    left: [prev_us] says the last character was an underscore. *)
Fixpoint parse_digits (s : string) (acc : Z) (prev_us : bool) : option Z :=
  match s with
  | EmptyString => if prev_us then None else Some acc
  | String c s' =>
      match digit_val c with
      | Some d => parse_digits s' (acc * 10 + d) false
      | None =>
          if Ascii.eqb c "_"%char && negb prev_us then parse_digits s' acc true else None
      end
  end.

(** An unsigned literal starts with a digit. *)
Definition parse_unsigned (s : string) : option Z :=
  match s with
  | String c _ => match digit_val c with Some _ => parse_digits s 0 false | None => None end
  | EmptyString => None
  end.

(** [int(s)] on a base-10 ASCII string; [None] is the [ValueError]. *)
Definition py_int (s : string) : option Z :=
  match rstrip (lstrip s) with
  | String c t =>
      if Ascii.eqb c "-"%char then option_map Z.opp (parse_unsigned t)
      else if Ascii.eqb c "+"%char then parse_unsigned t
      else parse_unsigned (String c t)
  | EmptyString => None
  end.

(** [str(n)] for an int. *)
Definition py_str_Z (z : Z) : string :=
  match z with
  | Z0 => "0"
  | Zpos p => NilEmpty.string_of_uint (Pos.to_uint p)
  | Zneg p => String "-"%char (NilEmpty.string_of_uint (Pos.to_uint p))
  end.

(** ** Dictionaries *)

(** [d.get(k)] on a dict literal given as its list of entries, in the
    order of the literal.  The literals of the code have distinct keys,
    so the first match is the only one. *)
Fixpoint dict_get {K V : Type} (eqb : K -> K -> bool) (d : list (K * V)) (k : K)
  : option V :=
  match d with
  | [] => None
  | (k', v) :: d' => if eqb k k' then Some v else dict_get eqb d' k
  end.

Definition dict_get_default {K V : Type} (eqb : K -> K -> bool)
  (d : list (K * V)) (k : K) (dflt : V) : V :=
  match dict_get eqb d k with Some v => v | None => dflt end.

(** ** Rationals and Python's [round] *)

Open Scope Q_scope.

(** Round to the nearest integer, ties to even (Python's [round]). *)
Definition round_half_even (q : Q) : Z :=
  let f := Qfloor q in
  match Qcompare (q - inject_Z f) (1 # 2) with
  | Lt => f
  | Gt => (f + 1)%Z
  | Eq => if Z.even f then f else (f + 1)%Z
  end.

(** ** Shared lemmas *)

Lemma py_bind_Ok {A B : Type} (a : A) (k : A -> PyResult B) :
  py_bind (Ok a) k = k a.
Proof. reflexivity. Qed.

Lemma py_bind_Raise {A B : Type} (e : PyExn) (k : A -> PyResult B) :
  py_bind (Raise e) k = Raise e.
Proof. reflexivity. Qed.

#[export] Hint Rewrite @py_bind_Ok @py_bind_Raise : bugbrawl_rw.

(** Sums and products of non-negative rationals, and closed literals. *)
Lemma Qplus_nonneg (x y : Q) : 0 <= x -> 0 <= y -> 0 <= x + y.
Proof. intros; lra. Qed.

#[export] Hint Resolve Qplus_nonneg Qmult_le_0_compat : bugbrawl.
#[export] Hint Extern 1 (Qle 0 (Qmake _ _)) => discriminate : bugbrawl.

(** [x in l] on a list of strings, as [existsb] computes it. *)
Lemma existsb_eqb_In (x : string) (l : list string) :
  existsb (String.eqb x) l = true <-> In x l.
Proof.
  rewrite existsb_exists. split.
  - intros (y & Hy & E). apply String.eqb_eq in E. now subst.
  - intros Hx. exists x. split; [exact Hx | apply String.eqb_refl].
Qed.

Lemma ascii_lower_idem c : ascii_lower (ascii_lower c) = ascii_lower c.
Proof. destruct c as [[] [] [] [] [] [] [] []]; reflexivity. Qed.

(** [s.lower().lower() == s.lower()]. *)
Lemma py_lower_idem s : py_lower (py_lower s) = py_lower s.
Proof. induction s as [|c s IH]; simpl; [reflexivity|]. now rewrite ascii_lower_idem, IH. Qed.

(** [dict.get] commutes with a map over the values of the literal. *)
Lemma dict_get_map {K A B : Type} (eqb : K -> K -> bool) (f : A -> B)
  (d : list (K * A)) (k : K) :
  dict_get eqb (map (fun '(k', a) => (k', f a)) d) k = option_map f (dict_get eqb d k).
Proof.
  induction d as [|[k' a] d IH]; simpl; [reflexivity|].
  destruct (eqb k k'); [reflexivity|exact IH].
Qed.

Lemma parse_digits_cons (c : ascii) (s : string) (acc d : Z) (b : bool) :
  digit_val c = Some d -> parse_digits (String c s) acc b = parse_digits s (acc * 10 + d) false.
Proof. intros H. cbn [parse_digits]. now rewrite H. Qed.

Lemma parse_digits_uint_acc (u : uint) (acc : positive) :
  parse_digits (NilEmpty.string_of_uint u) (Zpos acc) false = Some (Zpos (Pos.of_uint_acc u acc)).
Proof.
  revert acc. induction u; intros acc; [reflexivity| ..];
    cbn [NilEmpty.string_of_uint Pos.of_uint_acc];
    erewrite parse_digits_cons by (cbv; reflexivity);
    rewrite <- IHu; f_equal; lia.
Qed.

Lemma parse_digits_uint (u : uint) :
  parse_digits (NilEmpty.string_of_uint u) 0 false = Some (Z.of_N (Pos.of_uint u)).
Proof.
  induction u; simpl; try exact IHu; try reflexivity;
    apply parse_digits_uint_acc.
Qed.

Lemma uint_no_space (u : uint) :
  rstrip (NilEmpty.string_of_uint u) = NilEmpty.string_of_uint u.
Proof. induction u; simpl; try reflexivity; rewrite IHu; destruct u; reflexivity. Qed.

Lemma pos_to_uint_digit (p : positive) :
  exists c t, NilEmpty.string_of_uint (Pos.to_uint p) = String c t /\
              (exists d, digit_val c = Some d) /\ c <> "-"%char /\ c <> "+"%char /\
              is_space c = false.
Proof.
  pose proof (Unsigned.of_to p) as H.
  destruct (Pos.to_uint p); try discriminate H;
    do 2 eexists; (split; [reflexivity|]); (split; [eexists; reflexivity|]);
    repeat split; try discriminate; reflexivity.
Qed.

(** [int(str(n)) == n]. *)
Lemma py_int_str (z : Z) : py_int (py_str_Z z) = Some z.
Proof.
  destruct z as [|p|p]; [reflexivity| |].
  - unfold py_int, py_str_Z.
    destruct (pos_to_uint_digit p) as (c & t & Ht & [d Hd] & Hm & Hp & Hs).
    rewrite Ht. cbn [lstrip]. rewrite Hs. rewrite <- Ht, uint_no_space, Ht.
    replace (Ascii.eqb c "-"%char) with false by (symmetry; apply Ascii.eqb_neq; exact Hm).
    replace (Ascii.eqb c "+"%char) with false by (symmetry; apply Ascii.eqb_neq; exact Hp).
    unfold parse_unsigned. rewrite Hd, <- Ht, parse_digits_uint, Unsigned.of_to. reflexivity.
  - unfold py_int, py_str_Z. cbn [lstrip].
    destruct (pos_to_uint_digit p) as (c & t & Ht & [d Hd] & Hm & Hp & Hs).
    change (is_space "-"%char) with false. cbn iota.
    cbn [rstrip]. rewrite uint_no_space, Ht. cbn iota. rewrite <- Ht.
    change (Ascii.eqb "-"%char "-"%char) with true. cbn iota.
    unfold parse_unsigned. rewrite Ht, Hd, <- Ht, parse_digits_uint, Unsigned.of_to. reflexivity.
Qed.

(** [round_half_even] is a function of the rational's value, not of its
    representation: the Python value is a number, so two equal
    numbers round alike. *)
#[export] Instance round_half_even_proper : Proper (Qeq ==> eq) round_half_even.
Proof.
  intros x y Hxy. unfold round_half_even.
  rewrite (Qfloor_comp x y Hxy).
  assert (Hd : x - inject_Z (Qfloor y) == y - inject_Z (Qfloor y)).
  { now apply Qplus_comp. }
  now rewrite (Qcompare_comp _ _ Hd (1 # 2) (1 # 2) (Qeq_refl _)).
Qed.

(** Tactics: case on the first [if] of a hypothesis. *)
Ltac case_if_in H :=
  match type of H with
  | context [if ?c then _ else _] => destruct c
  end.

(** Tactics: decide a closed comparison of rationals by evaluation. *)
Ltac qeval :=
  first
    [ apply Qeq_bool_iff; vm_compute; reflexivity
    | apply Qle_bool_iff; vm_compute; reflexivity
    | apply Qlt_alt; vm_compute; reflexivity ].
