(* ===== verification/Binary64.v ===== *)
(** * Binary64 arithmetic on rationals

    A Python [float] is an IEEE 754 binary64 number, and every float
    operation of the program ([+], [*], [/], [float(n)] for an [int])
    returns the exact result rounded to the nearest binary64 number, ties
    to even.  A binary64 number is [m * 2^e] with [|m| < 2^53] and
    [e >= -1074].  [fl x] is that rounding of a rational [x]: with
    [fexp x = max(-1074, floor(log2 |x|) - 52)] the exponent of the unit
    in the last place, [fl x = round_half_even(x / 2^fexp x) * 2^fexp x].
    Overflow to infinity is not modelled: for the stats of the
    specification (1 to 100) no value of the program comes near
    2^1024.  A literal such as [1.1] denotes [fl (11 # 10)].

    The theorems are the two facts the program's bounds rest on:
    rounding is monotone ([fl_le], a [Proper (Qle ==> Qle)] instance),
    and it depends on the value only ([fl_proper], a
    [Proper (Qeq ==> Qeq)] instance). *)

From Stdlib Require Import ZArith QArith Qround Qpower Morphisms Lia Lqa.
From S2P Require Import Prelude.

Module Binary64.

Open Scope Q_scope.

(** ** Rounding *)

Definition pow2 (e : Z) : Q := Qpower 2 e.

(** [floor(log2 x)] for [x > 0], from the bit lengths of numerator and
    denominator. *)
Definition ilog2 (x : Q) : Z :=
  let l := (Z.log2 (Qnum x) - Z.log2 (Zpos (Qden x)))%Z in
  if Qle_bool (pow2 l) x then l else (l - 1)%Z.

(** The least exponent of a unit in the last place (subnormals). *)
Definition emin : Z := (-1074)%Z.

Definition fexp (x : Q) : Z := Z.max emin (ilog2 x - 52).

Definition fl_pos (x : Q) : Q :=
  inject_Z (round_half_even (x / pow2 (fexp x))) * pow2 (fexp x).

(** The binary64 number nearest to [x], ties to even. *)
Definition fl (x : Q) : Q :=
  match Qcompare x 0 with
  | Gt => fl_pos x
  | Eq => 0
  | Lt => - fl_pos (- x)
  end.

(** [float(n)] for a Python [int]. *)
Definition float_of_int (z : Z) : Q := fl (inject_Z z).

(** ** Powers of two *)

Lemma pow2_pos (e : Z) : 0 < pow2 e.
Proof. apply Qpower_0_lt. reflexivity. Qed.

Lemma pow2_add (a b : Z) : pow2 (a + b) == pow2 a * pow2 b.
Proof. apply Qpower_plus. discriminate. Qed.

Lemma pow2_le (a b : Z) : (a <= b)%Z -> pow2 a <= pow2 b.
Proof. intros H. apply Qpower_le_compat_l; [exact H | discriminate]. Qed.

Lemma pow2_lt (a b : Z) : (a < b)%Z -> pow2 a < pow2 b.
Proof. intros H. apply Qpower_lt_compat_l; [exact H | reflexivity]. Qed.

Lemma pow2_Z (k : Z) : (0 <= k)%Z -> inject_Z (2 ^ k) == pow2 k.
Proof. intros Hk. unfold pow2. now rewrite Zpower_Qpower. Qed.

Lemma pow2_le_inv (a b : Z) : pow2 a <= pow2 b -> (a <= b)%Z.
Proof. intros H. destruct (Z.le_gt_cases a b) as [|Hlt]; [assumption|].
  exfalso. apply (Qlt_not_le (pow2 b) (pow2 a)); [apply pow2_lt; lia | exact H]. Qed.

#[local] Hint Resolve pow2_pos : bugbrawl.

(** ** The binary logarithm *)

Lemma ilog2_spec (x : Q) : 0 < x -> pow2 (ilog2 x) <= x < pow2 (ilog2 x + 1).
Proof.
  intros Hx. destruct x as [n d]. unfold ilog2. cbn [Qnum Qden].
  assert (Hn : (0 < n)%Z) by (unfold Qlt in Hx; simpl in Hx; lia).
  set (ln := Z.log2 n). set (ld := Z.log2 (Zpos d)).
  destruct (Z.log2_spec n Hn) as [Hn1 Hn2]. destruct (Z.log2_spec (Zpos d) eq_refl) as [Hd1 Hd2].
  fold ln in Hn1, Hn2. fold ld in Hd1, Hd2.
  assert (Hln : (0 <= ln)%Z) by apply Z.log2_nonneg.
  assert (Hld : (0 <= ld)%Z) by apply Z.log2_nonneg.
  rewrite Zle_Qle in Hn1, Hd1. rewrite Zlt_Qlt in Hn2, Hd2.
  rewrite !pow2_Z in Hn1, Hn2, Hd1, Hd2 by lia.
  assert (HD : 0 < inject_Z (Zpos d)) by (unfold Qlt; simpl; lia).
  assert (HX : n # d == inject_Z n / inject_Z (Zpos d)) by apply Qmake_Qdiv.
  assert (HA : pow2 (ln - ld - 1) < n # d).
  { rewrite HX. apply Qlt_shift_div_l; [exact HD|].
    apply (Qlt_le_trans _ (pow2 (ln - ld - 1) * pow2 (Z.succ ld))).
    - apply Qmult_lt_l; [apply pow2_pos | exact Hd2].
    - rewrite <- pow2_add. replace (ln - ld - 1 + Z.succ ld)%Z with ln by lia. exact Hn1. }
  assert (HB : n # d < pow2 (ln - ld + 1)).
  { rewrite HX. apply Qlt_shift_div_r; [exact HD|].
    apply (Qlt_le_trans _ (pow2 (Z.succ ln))); [exact Hn2|].
    replace (Z.succ ln) with (ln - ld + 1 + ld)%Z by lia. rewrite pow2_add.
    apply Qmult_le_l; [apply pow2_pos | exact Hd1]. }
  destruct (Qle_bool (pow2 (ln - ld)) (n # d)) eqn:E.
  - apply Qle_bool_iff in E. split; [exact E | exact HB].
  - assert (Hlt : n # d < pow2 (ln - ld)).
    { apply Qnot_le_lt. intros Hle. apply Qle_bool_iff in Hle. congruence. }
    replace (ln - ld - 1 + 1)%Z with (ln - ld)%Z by lia.
    split; [apply Qlt_le_weak; exact HA | exact Hlt].
Qed.

Lemma ilog2_unique (x : Q) (k : Z) : pow2 k <= x < pow2 (k + 1) -> ilog2 x = k.
Proof.
  intros [H1 H2].
  assert (Hx : 0 < x) by (eapply Qlt_le_trans; [apply pow2_pos | exact H1]).
  destruct (ilog2_spec x Hx) as [H3 H4].
  assert (ilog2 x <= k)%Z.
  { apply Z.lt_succ_r, (Z.lt_le_trans _ (k + 1)); [|lia].
    destruct (Z.le_gt_cases (k + 1) (ilog2 x)) as [Hge|]; [|lia].
    exfalso. apply (Qlt_not_le x (pow2 (ilog2 x))); [|exact H3].
    eapply Qlt_le_trans; [exact H2 | apply pow2_le; exact Hge]. }
  assert (k <= ilog2 x)%Z.
  { destruct (Z.le_gt_cases k (ilog2 x)) as [|Hlt]; [assumption|].
    exfalso. apply (Qlt_not_le x (pow2 k)); [|exact H1].
    eapply Qlt_le_trans; [exact H4 | apply pow2_le; lia]. }
  lia.
Qed.

Lemma ilog2_mono (x y : Q) : 0 < x -> x <= y -> (ilog2 x <= ilog2 y)%Z.
Proof.
  intros Hx Hxy. assert (Hy : 0 < y) by (eapply Qlt_le_trans; eassumption).
  destruct (ilog2_spec x Hx) as [H1 _]. destruct (ilog2_spec y Hy) as [_ H2].
  destruct (Z.le_gt_cases (ilog2 x) (ilog2 y)) as [|Hlt]; [assumption|].
  exfalso. apply (Qlt_not_le y (pow2 (ilog2 x))).
  - eapply Qlt_le_trans; [exact H2 | apply pow2_le; lia].
  - eapply Qle_trans; [exact H1 | exact Hxy].
Qed.

Lemma ilog2_proper (x y : Q) : 0 < x -> x == y -> ilog2 x = ilog2 y.
Proof.
  intros Hx Hxy. apply ilog2_unique. rewrite Hxy. apply ilog2_spec. now rewrite <- Hxy.
Qed.

(** ** Scaled significands *)

Lemma fexp_mono (x y : Q) : 0 < x -> x <= y -> (fexp x <= fexp y)%Z.
Proof. intros Hx Hxy. unfold fexp. pose proof (ilog2_mono x y Hx Hxy). lia. Qed.

Lemma div_pow2_le (x y : Q) (e : Z) : x <= y -> x / pow2 e <= y / pow2 e.
Proof.
  intros H. apply Qle_shift_div_l; [apply pow2_pos|].
  rewrite Qmult_comm, Qmult_div_r by (apply Qnot_eq_sym, Qlt_not_eq, pow2_pos). exact H.
Qed.

(** The significand of a positive number stays below 2^53 ... *)
Lemma scaled_lt (x : Q) : 0 < x -> x / pow2 (fexp x) < pow2 53.
Proof.
  intros Hx. destruct (ilog2_spec x Hx) as [_ H2].
  apply Qlt_shift_div_r; [apply pow2_pos|]. rewrite <- pow2_add.
  eapply Qlt_le_trans; [exact H2 | apply pow2_le]. unfold fexp. lia.
Qed.

(** ... and, for a normal number, reaches 2^52. *)
Lemma scaled_ge (x : Q) : 0 < x -> (emin < fexp x)%Z -> pow2 52 <= x / pow2 (fexp x).
Proof.
  intros Hx He. destruct (ilog2_spec x Hx) as [H1 _].
  apply Qle_shift_div_l; [apply pow2_pos|]. rewrite <- pow2_add.
  eapply Qle_trans; [|exact H1]. apply pow2_le. unfold fexp in *. lia.
Qed.

(** ** Rounding to an integer *)

Lemma round_half_even_floor (s : Q) :
  (Qfloor s <= round_half_even s <= Qfloor s + 1)%Z.
Proof.
  unfold round_half_even. destruct (Qcompare _ _); [destruct (Z.even _)| |]; lia.
Qed.

Lemma round_half_even_mono (s t : Q) : s <= t -> (round_half_even s <= round_half_even t)%Z.
Proof.
  intros Hst. pose proof (Qfloor_resp_le s t Hst) as Hf.
  pose proof (round_half_even_floor s) as Hs. pose proof (round_half_even_floor t) as Ht.
  destruct (Z.lt_ge_cases (Qfloor s) (Qfloor t)) as [Hlt|Hge]; [lia|].
  assert (He : Qfloor t = Qfloor s) by lia.
  unfold round_half_even. rewrite He.
  destruct (Qcompare_spec (s - inject_Z (Qfloor s)) (1 # 2)) as [E1|E1|E1];
    destruct (Qcompare_spec (t - inject_Z (Qfloor s)) (1 # 2)) as [E2|E2|E2];
    try (destruct (Z.even (Qfloor s))); try lia; exfalso; lra.
Qed.

Lemma round_half_even_lt (s : Q) (k : Z) : s < inject_Z k -> (round_half_even s <= k)%Z.
Proof.
  intros Hs. pose proof (round_half_even_floor s).
  assert (Qfloor s < k)%Z by (rewrite Zlt_Qlt; eapply Qle_lt_trans; [apply Qfloor_le | exact Hs]).
  lia.
Qed.

Lemma round_half_even_ge (s : Q) (k : Z) : inject_Z k <= s -> (k <= round_half_even s)%Z.
Proof.
  intros Hs. pose proof (round_half_even_floor s).
  pose proof (Qfloor_resp_le _ _ Hs) as Hf. rewrite Qfloor_Z in Hf. lia.
Qed.

(** ** Monotonicity *)

Lemma fl_pos_nonneg (x : Q) : 0 < x -> 0 <= fl_pos x.
Proof.
  intros Hx. unfold fl_pos. apply Qmult_le_0_compat; [|apply Qlt_le_weak, pow2_pos].
  change 0 with (inject_Z 0). rewrite <- Zle_Qle. apply round_half_even_ge.
  apply Qle_shift_div_l; [apply pow2_pos|]. rewrite Qmult_0_l. apply Qlt_le_weak, Hx.
Qed.

Lemma fl_pos_mono (x y : Q) : 0 < x -> x <= y -> fl_pos x <= fl_pos y.
Proof.
  intros Hx Hxy. assert (Hy : 0 < y) by (eapply Qlt_le_trans; eassumption).
  pose proof (fexp_mono x y Hx Hxy) as He. unfold fl_pos.
  destruct (Z.eq_dec (fexp x) (fexp y)) as [Heq|Hne].
  - rewrite Heq. apply Qmult_le_r; [apply pow2_pos|]. rewrite <- Zle_Qle.
    apply round_half_even_mono, div_pow2_le, Hxy.
  - apply (Qle_trans _ (pow2 53 * pow2 (fexp x))).
    + apply Qmult_le_r; [apply pow2_pos|]. rewrite <- (pow2_Z 53) by lia. rewrite <- Zle_Qle.
      apply round_half_even_lt. rewrite (pow2_Z 53) by lia. apply scaled_lt, Hx.
    + apply (Qle_trans _ (pow2 52 * pow2 (fexp y))).
      * rewrite <- !pow2_add. apply pow2_le. lia.
      * apply Qmult_le_r; [apply pow2_pos|]. rewrite <- (pow2_Z 52) by lia. rewrite <- Zle_Qle.
        apply round_half_even_ge. rewrite (pow2_Z 52) by lia.
        apply scaled_ge; [exact Hy|]. unfold fexp in *. lia.
Qed.

Lemma fl_mono (x y : Q) : x <= y -> fl x <= fl y.
Proof.
  intros Hxy. unfold fl.
  destruct (Qcompare_spec x 0) as [Hx|Hx|Hx]; destruct (Qcompare_spec y 0) as [Hy|Hy|Hy];
    try (exfalso; lra).
  - apply Qle_refl.
  - apply fl_pos_nonneg, Hy.
  - assert (0 <= fl_pos (- x)) by (apply fl_pos_nonneg; lra). lra.
  - assert (fl_pos (- y) <= fl_pos (- x)) by (apply fl_pos_mono; lra). lra.
  - assert (0 <= fl_pos (- x)) by (apply fl_pos_nonneg; lra).
    assert (0 <= fl_pos y) by (apply fl_pos_nonneg; lra). lra.
  - apply fl_pos_mono; assumption.
Qed.

(** Rounding is monotone ... *)
#[export] Instance fl_le : Proper (Qle ==> Qle) fl.
Proof. intros x y H. exact (fl_mono x y H). Qed.

(** ... and a function of the value: equal rationals round alike. *)
#[export] Instance fl_proper : Proper (Qeq ==> Qeq) fl.
Proof.
  intros x y H. apply Qle_antisym; apply fl_mono; rewrite H; apply Qle_refl.
Qed.

Lemma fl_0 : fl 0 == 0.
Proof. reflexivity. Qed.

Lemma fl_nonneg (x : Q) : 0 <= x -> 0 <= fl x.
Proof. intros H. rewrite <- fl_0. apply fl_mono, H. Qed.

#[export] Hint Resolve fl_nonneg fl_mono : bugbrawl.

(** A number already in binary64 is its own rounding; the literals are
    checked by evaluation. *)
Definition is_float (x : Q) : Prop := fl x == x.

Lemma is_float_fl_le (x y : Q) : is_float y -> x <= y -> fl x <= y.
Proof. unfold is_float. intros Hy H. rewrite <- Hy. apply fl_mono, H. Qed.

Lemma is_float_le_fl (x y : Q) : is_float x -> x <= y -> x <= fl y.
Proof. unfold is_float. intros Hx H. rewrite <- Hx at 1. apply fl_mono, H. Qed.

End Binary64.
