(* ===== verification/Matchup.v ===== *)
(** * Matchup table ([src/app/routes/battles.py] lines 62-91, 119-126)

    [MATCHUP_MATRIX] is the dict literal of the source, entry for entry and
    in the order of the literal; [get_matchup_multiplier] is the function
    of lines 119-126 on [Optional[str]] arguments.  The abstract
    specification is a total table over the two enumerations of the
    comment at lines 62-64, with values in three advantage levels; the
    refinement theorem says the case-insensitive string lookup with its
    1.0 fallback computes exactly that table.  The literals 1.0 and 1.5
    are binary64 numbers as written; 0.7 is its binary64 value
    [fl (7#10)]. *)

From Stdlib Require Import ZArith QArith String List Bool Lia.
From S2P Require Import Prelude Binary64.
Import ListNotations Binary64.

Module Matchup.

Open Scope Q_scope.
Open Scope string_scope.

(** ** Code *)

Definition MATCHUP_MATRIX : list (string * list (string * Q)) := [
  ("piercing",
    [("hard_shell", 3#2); ("segmented_armor", 1); ("evasive", fl (7#10));
     ("hairy_spiny", 1); ("toxic_skin", 3#2); ("thick_hide", fl (7#10))]);
  ("crushing",
    [("hard_shell", 3#2); ("segmented_armor", fl (7#10)); ("evasive", 1);
     ("hairy_spiny", 1); ("toxic_skin", fl (7#10)); ("thick_hide", 3#2)]);
  ("slashing",
    [("hard_shell", fl (7#10)); ("segmented_armor", 3#2); ("evasive", 3#2);
     ("hairy_spiny", fl (7#10)); ("toxic_skin", 1); ("thick_hide", 1)]);
  ("venom",
    [("hard_shell", 1); ("segmented_armor", 3#2); ("evasive", 1);
     ("hairy_spiny", fl (7#10)); ("toxic_skin", fl (7#10)); ("thick_hide", 3#2)]);
  ("chemical",
    [("hard_shell", 1); ("segmented_armor", 1); ("evasive", 3#2);
     ("hairy_spiny", 3#2); ("toxic_skin", fl (7#10)); ("thick_hide", fl (7#10))]);
  ("grappling",
    [("hard_shell", fl (7#10)); ("segmented_armor", fl (7#10)); ("evasive", 3#2);
     ("hairy_spiny", 3#2); ("toxic_skin", 1); ("thick_hide", 1)])
].

(** [get_matchup_multiplier(attack_type, defense_type)]:
    [if not attack_type or not defense_type: return 1.0], then
    [MATCHUP_MATRIX.get(attack, {}).get(defense, 1.0)] on the lowercased
    names. *)
Definition get_matchup_multiplier (attack_type defense_type : option string) : Q :=
  if negb (py_truthy attack_type) || negb (py_truthy defense_type) then 1
  else
    let attack := py_lower (py_or_empty attack_type) in
    let defense := py_lower (py_or_empty defense_type) in
    dict_get_default String.eqb
      (dict_get_default String.eqb MATCHUP_MATRIX attack []) defense 1.

(** ** Abstract specification *)

(** The offensive and defensive types named in the comment of lines
    62-64, with their spelling in the code. *)
Inductive AttackType := Piercing | Crushing | Slashing | Venom | Chemical | Grappling.
Inductive DefenseType :=
  HardShell | SegmentedArmor | Evasive | HairySpiny | ToxicSkin | ThickHide.

Definition ATTACK_TYPES : list (string * AttackType) :=
  [("piercing", Piercing); ("crushing", Crushing); ("slashing", Slashing);
   ("venom", Venom); ("chemical", Chemical); ("grappling", Grappling)].

Definition DEFENSE_TYPES : list (string * DefenseType) :=
  [("hard_shell", HardShell); ("segmented_armor", SegmentedArmor);
   ("evasive", Evasive); ("hairy_spiny", HairySpiny);
   ("toxic_skin", ToxicSkin); ("thick_hide", ThickHide)].

(** The three levels the design uses. *)
Inductive Advantage := Weak | Neutral | Strong.

Definition adv_value (a : Advantage) : Q :=
  match a with Weak => fl (7#10) | Neutral => 1 | Strong => 3#2 end.

(** The design table: which attack is strong or weak against which
    defence. *)
Definition matchup (x : AttackType) (y : DefenseType) : Advantage :=
  match x, y with
  | Piercing, (HardShell | ToxicSkin) => Strong
  | Piercing, (Evasive | ThickHide) => Weak
  | Crushing, (HardShell | ThickHide) => Strong
  | Crushing, (SegmentedArmor | ToxicSkin) => Weak
  | Slashing, (SegmentedArmor | Evasive) => Strong
  | Slashing, (HardShell | HairySpiny) => Weak
  | Venom, (SegmentedArmor | ThickHide) => Strong
  | Venom, (HairySpiny | ToxicSkin) => Weak
  | Chemical, (Evasive | HairySpiny) => Strong
  | Chemical, (ToxicSkin | ThickHide) => Weak
  | Grappling, (Evasive | HairySpiny) => Strong
  | Grappling, (HardShell | SegmentedArmor) => Weak
  | _, _ => Neutral
  end.

(** Recognising a type name: falsy values are absent, the name is
    compared lowercased. *)
Definition parse_attack (o : option string) : option AttackType :=
  if py_truthy o then dict_get String.eqb ATTACK_TYPES (py_lower (py_or_empty o))
  else None.

Definition parse_defense (o : option string) : option DefenseType :=
  if py_truthy o then dict_get String.eqb DEFENSE_TYPES (py_lower (py_or_empty o))
  else None.

(** The contract of section 4.1: the table on recognised pairs, 1.0
    otherwise. *)
Definition multiplier_spec (x : option AttackType) (y : option DefenseType) : Q :=
  match x, y with
  | Some a, Some d => adv_value (matchup a d)
  | _, _ => 1
  end.

(** ** Lemmas *)

Definition row_of (x : AttackType) : list (string * Q) :=
  map (fun '(n, y) => (n, adv_value (matchup x y))) DEFENSE_TYPES.

(** The literal is the design table laid out by rows. *)
Lemma MATCHUP_MATRIX_rows :
  MATCHUP_MATRIX = map (fun '(n, x) => (n, row_of x)) ATTACK_TYPES.
Proof. reflexivity. Qed.

Lemma row_lookup (row : option (list (string * Q))) (defense : string) :
  dict_get_default String.eqb (match row with Some r => r | None => [] end) defense 1
  = match row with
    | Some r => dict_get_default String.eqb r defense 1
    | None => 1
    end.
Proof. destruct row; reflexivity. Qed.

Lemma py_truthy_lower s : py_truthy (Some (py_lower s)) = py_truthy (Some s).
Proof. destruct s; reflexivity. Qed.

Lemma multiplier_spec_None_r x : multiplier_spec x None = 1.
Proof. now destruct x. Qed.

(** ** Theorems *)

(** C10 (refinement).  For every pair of optional strings, the code's
    lookup returns the design table's value when both names are
    recognised (case-insensitively) and 1.0 otherwise. *)
Theorem get_matchup_multiplier_refines (a d : option string) :
  get_matchup_multiplier a d = multiplier_spec (parse_attack a) (parse_defense d).
Proof.
  unfold get_matchup_multiplier, parse_attack, parse_defense.
  destruct (py_truthy a), (py_truthy d); cbn [negb orb];
    [| now rewrite multiplier_spec_None_r | reflexivity | reflexivity].
  unfold dict_get_default at 2.
  rewrite MATCHUP_MATRIX_rows, dict_get_map, row_lookup.
  destruct (dict_get String.eqb ATTACK_TYPES _) as [x|]; cbn [option_map]; [|reflexivity].
  unfold dict_get_default, row_of.
  rewrite dict_get_map.
  destruct (dict_get String.eqb DEFENSE_TYPES _); reflexivity.
Qed.

Lemma parse_attack_lower s : parse_attack (Some (py_lower s)) = parse_attack (Some s).
Proof. unfold parse_attack, py_or_empty. now rewrite py_truthy_lower, py_lower_idem. Qed.

Lemma parse_defense_lower s : parse_defense (Some (py_lower s)) = parse_defense (Some s).
Proof. unfold parse_defense, py_or_empty. now rewrite py_truthy_lower, py_lower_idem. Qed.

(** A corollary of the refinement: whatever the arguments, the multiplier is one of
    the three design values 0.7 (its binary64 value), 1.0 and 1.5, and it is exactly 1.0 as
    soon as one of the two names is absent, empty or unknown. *)
Theorem get_matchup_multiplier_values (a d : option string) :
  (get_matchup_multiplier a d = fl (7#10) \/ get_matchup_multiplier a d = 1 \/
   get_matchup_multiplier a d = 3#2) /\
  (parse_attack a = None \/ parse_defense d = None -> get_matchup_multiplier a d = 1).
Proof.
  rewrite get_matchup_multiplier_refines.
  destruct (parse_attack a) as [x|], (parse_defense d) as [y|]; simpl;
    (split; [|intros [H|H]; discriminate || reflexivity]); auto.
  destruct (matchup x y); simpl; auto.
Qed.

(** Another: the lookup is case-insensitive in both names. *)
Theorem get_matchup_multiplier_case_insensitive (a d : string) :
  get_matchup_multiplier (Some a) (Some d)
  = get_matchup_multiplier (Some (py_lower a)) (Some (py_lower d)).
Proof.
  rewrite !get_matchup_multiplier_refines.
  now rewrite parse_attack_lower, parse_defense_lower.
Qed.

Example matchup_mixed_case :
  get_matchup_multiplier (Some "Piercing") (Some "HARD_SHELL") = 3#2.
Proof. reflexivity. Qed.

Example matchup_unknown :
  get_matchup_multiplier (Some "laser") (Some "evasive") = 1.
Proof. reflexivity. Qed.

End Matchup.
