(* ===== verification/SizeModifier.v ===== *)
(** * Size modifier resolver ([src/app/routes/battles.py] lines 93-117, 128-194)

    [SIZE_ORDER], [SIZE_BASE_MODIFIER] and the two attack sets are the
    module-level literals of the source, with each float literal the
    binary64 value of its decimal text.  [get_size_multipliers]
    (lines 128-194) begins with [a = red_corner_bug.size] (line 136):
    the name [red_corner_bug] is neither a parameter, a local nor a
    global of [battles.py], so every call raises [NameError] there,
    whatever the arguments.  The rest of the body (the neutral and
    size-agnostic shortcuts, [default_for_diff], the explicit/reciprocal
    resolution and the rounding) is never reached and is not modelled.
    Nothing in the repository calls the function: the engine's power
    ([Power.v]) ignores sizes. *)

From Stdlib Require Import ZArith QArith String List.
From S2P Require Import Prelude Binary64.
Import ListNotations Binary64.

Module SizeModifier.

Open Scope Q_scope.
Open Scope string_scope.

(** ** Code *)

Definition SIZE_ORDER : list string := ["tiny"; "small"; "medium"; "large"; "massive"].

Definition SIZE_BASE_MODIFIER : list ((string * string) * Q) := [
  (("massive", "tiny"), fl (3#2));
  (("massive", "small"), fl (13#10));
  (("massive", "medium"), fl (23#20));
  (("large", "tiny"), fl (7#5));
  (("large", "small"), fl (5#4));
  (("large", "medium"), fl (11#10));
  (("medium", "tiny"), fl (13#10));
  (("medium", "small"), fl (23#20));
  (("small", "tiny"), fl (6#5));
  (("tiny", "massive"), fl (7#10));
  (("tiny", "large"), fl (3#4));
  (("tiny", "medium"), fl (4#5));
  (("small", "massive"), fl (3#4));
  (("small", "large"), fl (4#5));
  (("small", "medium"), fl (17#20));
  (("medium", "large"), fl (9#10));
  (("medium", "massive"), fl (17#20));
  (("large", "massive"), fl (9#10))
].

Definition SIZE_DEPENDENT_ATTACKS : list string := ["crushing"; "grappling"; "piercing"; "slashing"].
Definition SIZE_AGNOSTIC_ATTACKS : list string := ["venom"; "chemical"].

(** Lines 128-136: the call binds its four parameters and the first
    statement reads the unbound name [red_corner_bug]. *)
Definition get_size_multipliers (size_a size_b : option string)
  (attack_type_a attack_type_b : option string) : PyResult (Q * Q) :=
  Raise NameError.

End SizeModifier.
