(* ===== verification/Random.v ===== *)
(** * The random source of [calculate_battle_power]

    [battles.py] line 288 calls the module-level [random.uniform(0.9,
    1.1)], which draws from the one global generator.  Its internals
    (the Mersenne Twister) are not part of the repository: the type
    class [RandomSource] states the primitive draw [random()] on an
    explicit generator state [S], and [RandomSourceLaws] its documented
    range [0.0 <= random() < 1.0].  [uniform] is written as CPython
    writes it, [a + (b - a) * self.random()], with each of the three
    float operations rounded to binary64 ([Binary64.fl]).  [StubSource]
    is a deterministic instance (a replayable list of draws);
    [CPythonRandom.v] gives the instance CPython computes from its
    32-bit words.

    The theorem [uniform_bounds] is CPython's documented range
    ("a <= N <= b, the end-point b may or may not be included depending
    on floating-point rounding"): for float end points whose difference
    is exact the result lies in [a, b], both ends included.
    [uniform_top] shows that [uniform(0.9, 1.1)] returns exactly [1.1]
    for the largest value of [random()]. *)

From Stdlib Require Import ZArith QArith List Lia Lqa.
From S2P Require Import Prelude Binary64.
Import ListNotations Binary64.

Open Scope Q_scope.

Class RandomSource (S : Type) := {
  (** [random.random()]: a float in [0.0, 1.0). *)
  rs_random : S -> Q * S
}.

Class RandomSourceLaws (S : Type) `{RandomSource S} := {
  rs_random_range : forall s, 0 <= fst (rs_random s) /\ fst (rs_random s) < 1
}.

Section Draws.
Context {S : Type} `{RandomSource S}.

(** [uniform(a, b)]: [a + (b - a) * self.random()] in binary64. *)
Definition uniform (a b : Q) (s : S) : Q * S :=
  let '(u, s') := rs_random s in (fl (a + fl (fl (b - a) * u)), s').

Lemma uniform_state (a b : Q) (s : S) : snd (uniform a b s) = snd (rs_random s).
Proof. unfold uniform. now destruct (rs_random s). Qed.

End Draws.

(** ** A deterministic source *)

(** Draws replayed from a list.  A draw [k] stands for the 53-bit
    integer CPython combines from two generator words; it is read modulo
    2^53 and scaled by 2^-53, as [random()] does.  An exhausted list
    draws 0. *)
Record StubState := { stub_draws : list Z }.

Definition two53 : positive := 9007199254740992%positive.

#[export] Instance StubSource : RandomSource StubState := {
  rs_random s :=
    match stub_draws s with
    | k :: ks => (Z.modulo k (Zpos two53) # two53, {| stub_draws := ks |})
    | [] => (0, s)
    end
}.

#[export] Instance StubSourceLaws : RandomSourceLaws StubState.
Proof.
  split. intros [[|k ks]]; simpl; [split; [apply Qle_refl | reflexivity]|].
  pose proof (Z.mod_pos_bound k (Zpos two53) eq_refl) as [H0 H1].
  unfold Qle, Qlt; simpl. lia.
Qed.

(** The draw that makes [random()] exactly 0.5, and the largest draw,
    [random() = 1 - 2^-53]. *)
Definition half_draw : Z := 4503599627370496%Z.
Definition top_draw : Z := 9007199254740991%Z.

(** The two end points of the power's noise, [0.9] and [1.1]. *)
Definition lo_noise : Q := fl (9 # 10).
Definition hi_noise : Q := fl (11 # 10).

(** ** Theorems *)

Section Bounds.
Context {S : Type} `{RandomSourceLaws S}.

(** [uniform(a, b)] for float end points [a <= b] whose
    difference [b - a] is exact lies in [a, b], both ends included, for
    every generator state: each rounding is monotone, so neither end is
    crossed. *)
Theorem uniform_bounds (a b : Q) (s : S) :
  is_float a -> is_float b -> fl (b - a) == b - a -> a <= b ->
  a <= fst (uniform a b s) <= b.
Proof.
  intros Ha Hb Hd Hab. unfold uniform.
  destruct (rs_random_range s) as [U0 U1]. destruct (rs_random s) as [u s']. simpl in *.
  assert (D0 : 0 <= fl (b - a)) by (apply fl_nonneg; lra).
  split.
  - apply is_float_le_fl; [exact Ha|].
    assert (0 <= fl (fl (b - a) * u)) by (apply fl_nonneg, Qmult_le_0_compat; assumption). lra.
  - apply is_float_fl_le; [exact Hb|].
    assert (fl (fl (b - a) * u) <= b - a).
    { apply (Qle_trans _ (fl (fl (b - a)))); [apply fl_mono | rewrite !Hd; apply Qle_refl].
      apply (Qle_trans _ (fl (b - a) * 1)); [apply Qmult_le_compat_nonneg; split; [exact D0 | apply Qle_refl | exact U0 | lra]|].
      rewrite Qmult_1_r. apply Qle_refl. }
    lra.
Qed.

End Bounds.

Lemma uniform_bounds_witness :
  is_float lo_noise /\ is_float hi_noise /\ fl (hi_noise - lo_noise) == hi_noise - lo_noise /\
  lo_noise <= hi_noise /\
  lo_noise <= fst (uniform lo_noise hi_noise {| stub_draws := [top_draw] |}) <= hi_noise.
Proof.
  assert (Ha : is_float lo_noise) by (unfold is_float; qeval).
  assert (Hb : is_float hi_noise) by (unfold is_float; qeval).
  assert (Hd : fl (hi_noise - lo_noise) == hi_noise - lo_noise) by qeval.
  assert (Hab : lo_noise <= hi_noise) by qeval.
  split; [exact Ha|]. split; [exact Hb|]. split; [exact Hd|]. split; [exact Hab|].
  exact (uniform_bounds lo_noise hi_noise {| stub_draws := [top_draw] |} Ha Hb Hd Hab).
Defined.

(** The upper end is reached: at the largest [random()] value
    [(b - a) * random()] falls short of [b - a] by less than half a unit
    in the last place of [a + (b - a)], so the sum rounds to [1.1]. *)
Lemma uniform_top : fst (uniform lo_noise hi_noise {| stub_draws := [top_draw] |}) == hi_noise.
Proof. qeval. Qed.
