(* ===== verification/CPythonRandom.v ===== *)
(** * CPython's [random()] over a 32-bit word generator

    The engine's one draw, [random.uniform], goes through [random()].
    This file writes [random()] as CPython 3.12 computes it from the
    32-bit words of its Mersenne Twister ([genrand_uint32], the one
    operation of the class [WordSource]; the twister's own state update
    is C code of [_randommodule.c] and stays abstract):
    [a = genrand_uint32() >> 5], [b = genrand_uint32() >> 6],
    [(a * 67108864.0 + b) * (1.0 / 9007199254740992.0)].  Both float
    operations are exact in binary64 (the sum is below 2^53 and the
    factor is 2^-53), so the rational is the float.

    [random_random_range] gives the value as [m / 2^53] for the 53-bit
    integer [m] made of the 27 high bits of the first word and the 26
    high bits of the second, and hence the interface law of
    [RandomSource]; [CPythonSource] is the instance. *)

From Stdlib Require Import ZArith QArith List Lia.
From S2P Require Import Prelude Random.
Import ListNotations.

Module CPythonRandom.

Open Scope Z_scope.

(** [genrand_uint32(self)]: the next 32-bit output. *)
Class WordSource (W : Type) := { genrand_uint32 : W -> Z * W }.

Class WordSourceLaws (W : Type) `{WordSource W} := {
  genrand_uint32_range : forall w, 0 <= fst (genrand_uint32 w) < 2 ^ 32
}.

Section Primitives.
Context {W : Type} `{WordSource W}.

(** [random_random]: 27 high bits of one word, 26 of the next. *)
Definition random_random (w : W) : Q * W :=
  let '(x, w1) := genrand_uint32 w in
  let '(y, w2) := genrand_uint32 w1 in
  let a := Z.shiftr x 5 in
  let b := Z.shiftr y 6 in
  ((inject_Z (a * 67108864 + b) * (1 # 9007199254740992))%Q, w2).

End Primitives.

Lemma shiftr_word_range (x j : Z) :
  0 <= x < 2 ^ 32 -> 0 <= j <= 32 -> 0 <= Z.shiftr x (32 - j) < 2 ^ j.
Proof.
  intros Hx Hj. rewrite Z.shiftr_div_pow2 by lia.
  assert (Hp : 2 ^ 32 = 2 ^ (32 - j) * 2 ^ j) by (rewrite <- Z.pow_add_r by lia; f_equal; lia).
  assert (0 < 2 ^ (32 - j)) by (apply Z.pow_pos_nonneg; lia).
  split; [apply Z.div_pos; lia|]. apply Z.div_lt_upper_bound; lia.
Qed.

Section Laws.
Context {W : Type} `{WordSourceLaws W}.

(** CPython's [random()] is [m / 2^53] for the 53-bit integer [m]
    assembled from the 27 high bits of one word and the 26 high bits of
    the next; in particular [0 <= random() < 1]. *)
Lemma random_random_range (w : W) :
  let x := fst (genrand_uint32 w) in
  let y := fst (genrand_uint32 (snd (genrand_uint32 w))) in
  (fst (random_random w) == (Z.shiftr x 5 * 67108864 + Z.shiftr y 6) # 9007199254740992)%Q /\
  0 <= Z.shiftr x 5 * 67108864 + Z.shiftr y 6 < 2 ^ 53 /\
  (0 <= fst (random_random w) /\ fst (random_random w) < 1)%Q.
Proof.
  cbv zeta. unfold random_random.
  pose proof (genrand_uint32_range w) as Hx.
  destruct (genrand_uint32 w) as [x w1]. simpl in Hx |- *.
  pose proof (genrand_uint32_range w1) as Hy.
  destruct (genrand_uint32 w1) as [y w2]. simpl in Hy |- *.
  pose proof (shiftr_word_range x 27 Hx ltac:(lia)) as Ha.
  pose proof (shiftr_word_range y 26 Hy ltac:(lia)) as Hb.
  simpl (32 - 27) in Ha. simpl (32 - 26) in Hb.
  assert (Hm : 0 <= Z.shiftr x 5 * 67108864 + Z.shiftr y 6 < 2 ^ 53) by (simpl in *; lia).
  assert (He : (inject_Z (Z.shiftr x 5 * 67108864 + Z.shiftr y 6) * (1 # 9007199254740992)
               == (Z.shiftr x 5 * 67108864 + Z.shiftr y 6) # 9007199254740992)%Q).
  { unfold Qeq; simpl. lia. }
  split; [exact He|]. split; [exact Hm|]. rewrite He.
  unfold Qle, Qlt; simpl in *. lia.
Qed.

End Laws.

#[export] Instance CPythonSource {W : Type} `{WordSource W} : RandomSource W :=
  { rs_random := random_random }.

#[export] Instance CPythonSourceLaws {W : Type} `{WordSourceLaws W} : RandomSourceLaws W.
Proof. split. intros w. exact (proj2 (proj2 (random_random_range w))). Qed.

(** ** A replayable word stream for runs *)

#[export] Instance ListWords : WordSource (list Z) := {
  genrand_uint32 ws := match ws with [] => (0, []) | x :: ws' => (x mod 2 ^ 32, ws') end
}.

#[export] Instance ListWordsLaws : WordSourceLaws (list Z).
Proof. split. intros [|x ws]; simpl; [lia|]. apply Z.mod_pos_bound. lia. Qed.

(** Two all-ones words: the largest value of [random()]. *)
Definition top_words : list Z := [4294967295; 4294967295].

End CPythonRandom.
