(* ===== verification/BugModel.v ===== *)
(** * The [Bug] model ([src/app/models.py] lines 37-127)

    [Bug] is the record of the columns the engine and the model methods
    read and write.  The class body declares [attack], [defense], [speed]
    and [health] twice; the later declarations (lines 52-57, defaults 5)
    are the ones the class keeps.  Line 87,
    [wins = db.Column(db.Integer, default=0),], ends with a comma: the
    class attribute [wins] is the one-element tuple [(Column(...),)],
    which SQLAlchemy's declarative scan skips with a warning, so the
    table has no [wins] column.  Every [Bug] the ORM creates or loads
    reads [self.wins] as that class tuple ([WinsClassTuple]); only an
    instance given its own attribute ([Bug(wins=3)] or [bug.wins = 3],
    never persisted) reads an [int] ([WinsInstance]).

    [win_rate], [power_level] and [generate_flair] are the three methods
    of lines 100-127.  [win_rate] starts with [self.wins + self.losses],
    which raises [TypeError] for the class tuple; on an [int] it divides
    in binary64.  [generate_flair] evaluates its branches in order and
    returns the updated bug or the exception a branch raises ([Null], in
    its last branch, is not a Python name). *)

From Stdlib Require Import ZArith QArith String List Bool Lia Lqa.
From S2P Require Import Prelude Binary64.
Import ListNotations Binary64.

Module BugModel.

Open Scope Q_scope.
Open Scope string_scope.
Open Scope py_scope.

(** What [self.wins] evaluates to. *)
Inductive WinsAttr :=
| WinsClassTuple
| WinsInstance (n : Z).

Record Bug := mkBug {
  bug_id : Z;
  nickname : string;
  attack : Z;
  defense : Z;
  speed : Z;
  attack_type : option string;
  defense_type : option string;
  size_class : option string;
  flair : option string;
  wins : WinsAttr;
  losses : Z
}.

(** What a class attribute of the declarative body is: a [Column]
    SQLAlchemy maps, or a one-element tuple holding one, which it skips. *)
Inductive ClassAttr := ColumnAttr | TupleOfColumn.

(** Line 87, [wins = db.Column(db.Integer, default=0),]. *)
Definition Bug_wins_attr : ClassAttr := TupleOfColumn.

(** A row as the ORM creates it: stats 5 (lines 52-54), no flair, no
    losses; [self.wins] is the class tuple, or the default 0 had the
    column been mapped. *)
Definition new_bug (id : Z) (name : string) (atk dfn sz : option string) : Bug :=
  {| bug_id := id; nickname := name; attack := 5; defense := 5; speed := 5;
     attack_type := atk; defense_type := dfn; size_class := sz;
     flair := None;
     wins := match Bug_wins_attr with TupleOfColumn => WinsClassTuple | ColumnAttr => WinsInstance 0 end;
     losses := 0 |}.

Definition set_flair (b : Bug) (f : string) : Bug :=
  {| bug_id := bug_id b; nickname := nickname b; attack := attack b;
     defense := defense b; speed := speed b; attack_type := attack_type b;
     defense_type := defense_type b; size_class := size_class b;
     flair := Some f; wins := wins b; losses := losses b |}.

(** [self.wins] in an arithmetic or a comparison with an [int]: the
    class tuple raises [TypeError] ([tuple + int], [tuple >= int]). *)
Definition wins_int (b : Bug) : PyResult Z :=
  match wins b with
  | WinsClassTuple => Raise TypeError
  | WinsInstance n => Ok n
  end.

(** [win_rate]: [total = self.wins + self.losses], then
    [(self.wins / total * 100) if total > 0 else 0]; [int / int] is the
    correctly rounded quotient, [* 100] rounds again. *)
Definition win_rate (b : Bug) : PyResult Q :=
  w <- wins_int b ;;
  let total := (w + losses b)%Z in
  Ok (if (0 <? total)%Z then fl (fl (inject_Z w / inject_Z total) * 100) else 0).

(** [power_level]: [self.attack + self.defense + self.speed]. *)
Definition power_level (b : Bug) : Z := (attack b + defense b + speed b)%Z.

(** [__repr__]: [f'<Bug {self.nickname}>']. *)
Definition bug_repr (b : Bug) : string := "<Bug " ++ nickname b ++ ">".

(** [generate_flair]: the tests of lines 114-127 in order, each reading
    [self.win_rate] or [self.wins] afresh; the first that holds sets
    [self.flair].  [and] does not evaluate its right side when the left
    one is false. *)
Definition generate_flair (b : Bug) : PyResult Bug :=
  r <- win_rate b ;;
  if Qle_bool 1 r then Ok (set_flair b "Undefeated") else
  r' <- win_rate b ;;
  dom <- (if Qle_bool 80 r' then (w <- wins_int b ;; Ok (5 <=? w)%Z) else Ok false) ;;
  if dom then Ok (set_flair b "Dominator") else
  w <- wins_int b ;;
  if (5 <=? w)%Z then Ok (set_flair b "Veteran")
  else if (80 <=? speed b)%Z then Ok (set_flair b "Speedster")
  else if (80 <=? defense b)%Z then Ok (set_flair b "Tank")
  else if (80 <=? attack b)%Z then Ok (set_flair b "Powerhouse")
  else Raise NameError.

(** A bug object given nine wins in ten battles on the instance, the
    record "Dominator" is meant for. *)
Definition sample_mantis : Bug :=
  {| bug_id := 1; nickname := "mantis"; attack := 90; defense := 40; speed := 60;
     attack_type := Some "piercing"; defense_type := Some "evasive";
     size_class := Some "medium"; flair := None; wins := WinsInstance 9; losses := 1 |}.

(** ** Theorems *)

(** C11 (functional).  [generate_flair] never assigns "Dominator": its
    condition [win_rate >= 80] implies the first branch's
    [win_rate >= 1], which is tested before it on the same value. *)
Theorem generate_flair_never_dominator (b b' : Bug) :
  generate_flair b = Ok b' -> flair b' <> Some "Dominator".
Proof.
  unfold generate_flair. intros H.
  destruct (win_rate b) as [r|e]; autorewrite with bugbrawl_rw in H; [|discriminate].
  destruct (Qle_bool 1 r) eqn:E1; [injection H as <-; discriminate|].
  destruct (Qle_bool 80 r) eqn:E80.
  - exfalso. apply Qle_bool_iff in E80.
    assert (H1 : 1 <= r) by (eapply Qle_trans; [|exact E80]; qeval).
    apply Qle_bool_iff in H1. congruence.
  - autorewrite with bugbrawl_rw in H.
    destruct (wins_int b) as [w|e]; autorewrite with bugbrawl_rw in H; [|discriminate].
    repeat case_if_in H; try discriminate; injection H as <-; discriminate.
Qed.

Lemma generate_flair_never_dominator_witness :
  generate_flair sample_mantis = Ok (set_flair sample_mantis "Undefeated") /\
  flair (set_flair sample_mantis "Undefeated") <> Some "Dominator".
Proof.
  assert (H : generate_flair sample_mantis = Ok (set_flair sample_mantis "Undefeated"))
    by (vm_compute; reflexivity).
  split; [exact H | exact (generate_flair_never_dominator _ _ H)].
Defined.

(** C12 (error).  A bug as the ORM creates it reads [self.wins] as the
    class tuple of line 87, and so does every row it loads (the table
    has no [wins] column).  For every such bug, [win_rate] and
    [generate_flair] raise [TypeError] on [self.wins + self.losses],
    whatever its other fields: no stored bug can be given a flair, and
    the [NameError] of the last branch is never the error it meets. *)
Theorem stored_bug_type_error (b : Bug) (id : Z) (name : string) (atk dfn sz : option string) :
  wins (new_bug id name atk dfn sz) = WinsClassTuple /\
  (wins b = WinsClassTuple -> win_rate b = Raise TypeError /\ generate_flair b = Raise TypeError).
Proof.
  split; [reflexivity|]. intros Hw.
  unfold generate_flair, win_rate, wins_int. rewrite Hw. split; reflexivity.
Qed.

Lemma stored_bug_type_error_witness :
  wins (set_flair (new_bug 3 "beetle" None None None) "Tank") = WinsClassTuple /\
  generate_flair (set_flair (new_bug 3 "beetle" None None None) "Tank") = Raise TypeError.
Proof.
  assert (Hw : wins (set_flair (new_bug 3 "beetle" None None None) "Tank") = WinsClassTuple)
    by reflexivity.
  split; [exact Hw|].
  exact (proj2 (proj2 (stored_bug_type_error _ 3 "beetle" None None None) Hw)).
Defined.

End BugModel.
