(* ===== verification/Power.v ===== *)
(** * Power calculator ([src/app/routes/battles.py] lines 265-290)

    [calculate_battle_power(bug)] weighs the three stats,
    [bug.attack * 2.0 + bug.defense * 1.5 + bug.speed * 1.2], and
    multiplies by one draw of [random.uniform(0.9, 1.1)].  Python
    evaluates the sum from the left; each [int * float] converts the
    [int] to the nearest float and rounds the product, each [+] rounds
    the sum, and the final product is rounded: every operation goes
    through [Binary64.fl].  The generator state is threaded explicitly.

    The docstring of [simulate_battle] and the specification (section
    4.3) also apply the matchup and size multipliers; the code does not,
    and [calculate_battle_power_type_blind] states it.  The function is
    called only from [simulate_battle], at a line that call never
    reaches ([Battle.v]); its theorems are about the function. *)

From Stdlib Require Import ZArith QArith String List Lia Lqa.
From S2P Require Import Prelude Binary64 Random BugModel.
Import ListNotations Binary64 BugModel.

Module Power.

Open Scope Q_scope.

Section Power.
Context {S : Type} `{RandomSource S}.

(** [bug.attack * 2.0 + bug.defense * 1.5 + bug.speed * 1.2]. *)
Definition base_power (bug : Bug) : Q :=
  fl (fl (fl (float_of_int (attack bug) * 2) + fl (float_of_int (defense bug) * (3 # 2)))
      + fl (float_of_int (speed bug) * fl (6 # 5))).

(** [base_power * random.uniform(0.9, 1.1)], one draw per call. *)
Definition calculate_battle_power (bug : Bug) (s : S) : Q * S :=
  let '(randomness, s') := uniform lo_noise hi_noise s in
  (fl (base_power bug * randomness), s').

Lemma calculate_battle_power_fst (bug : Bug) (s : S) :
  fst (calculate_battle_power bug s) = fl (base_power bug * fst (uniform lo_noise hi_noise s)).
Proof. unfold calculate_battle_power. now destruct (uniform _ _ s). Qed.

End Power.

Lemma float_of_int_nonneg (z : Z) : (0 <= z)%Z -> 0 <= float_of_int z.
Proof. intros Hz. apply fl_nonneg. change 0 with (inject_Z 0). now rewrite <- Zle_Qle. Qed.

Lemma base_power_nonneg (bug : Bug) :
  (0 <= attack bug)%Z -> (0 <= defense bug)%Z -> (0 <= speed bug)%Z -> 0 <= base_power bug.
Proof.
  intros Ha Hd Hs. unfold base_power.
  assert (0 <= fl (6 # 5)) by auto with bugbrawl.
  auto 10 using float_of_int_nonneg with bugbrawl.
Qed.

(** The end points of the noise are floats whose difference is exact. *)
Lemma noise_floats :
  is_float lo_noise /\ is_float hi_noise /\ fl (hi_noise - lo_noise) == hi_noise - lo_noise /\
  lo_noise <= hi_noise.
Proof. unfold is_float. repeat split; qeval. Qed.

(** ** Theorems *)

(** C8 (bounds).  With non-negative stats, the power lies between
    [base * 0.9] and [base * 1.1], both computed in binary64 and both
    ends included, for every generator state. *)
Theorem calculate_battle_power_bounds {S : Type} `{RandomSourceLaws S} (bug : Bug) (s : S) :
  (0 <= attack bug)%Z -> (0 <= defense bug)%Z -> (0 <= speed bug)%Z ->
  fl (base_power bug * lo_noise) <= fst (calculate_battle_power bug s)
  <= fl (base_power bug * hi_noise).
Proof.
  intros Ha Hd Hs. pose proof (base_power_nonneg bug Ha Hd Hs) as Hb.
  destruct noise_floats as (N1 & N2 & N3 & N4).
  destruct (uniform_bounds lo_noise hi_noise s N1 N2 N3 N4) as [U0 U1].
  rewrite calculate_battle_power_fst. split; apply fl_mono.
  - apply Qmult_le_compat_nonneg; split; [exact Hb | apply Qle_refl | | exact U0].
    unfold is_float in N1. rewrite <- N1. apply fl_nonneg. discriminate.
  - apply Qmult_le_compat_nonneg; split; [exact Hb | apply Qle_refl | | exact U1].
    eapply Qle_trans; [|exact U0]. unfold is_float in N1. rewrite <- N1.
    apply fl_nonneg. discriminate.
Qed.

(** C9 (functional).  The power depends on the three stats and the
    draw only: two bugs with the same attack, defense and speed get the
    same power from the same generator state, whatever their attack
    type, defense type and size class.  The matchup table and the size
    resolver are never consulted. *)
Theorem calculate_battle_power_type_blind {S : Type} `{RandomSource S} (b b' : Bug) (s : S) :
  attack b = attack b' -> defense b = defense b' -> speed b = speed b' ->
  calculate_battle_power b s = calculate_battle_power b' s.
Proof.
  intros Ha Hd Hs. unfold calculate_battle_power, base_power.
  now rewrite Ha, Hd, Hs.
Qed.

(** ** Runs on concrete inputs *)

(** The specification's example: stats 10/10/10 give a base of 47. *)
Definition sample_ten : Bug :=
  {| bug_id := 10; nickname := "stag"; attack := 10; defense := 10; speed := 10;
     attack_type := Some "crushing"; defense_type := Some "hard_shell";
     size_class := Some "large"; flair := None; wins := WinsClassTuple; losses := 0 |}.

Lemma calculate_battle_power_bounds_witness :
  (0 <= attack sample_ten)%Z /\ (0 <= defense sample_ten)%Z /\ (0 <= speed sample_ten)%Z /\
  fl (base_power sample_ten * lo_noise)
    <= fst (calculate_battle_power sample_ten {| stub_draws := [half_draw] |})
    <= fl (base_power sample_ten * hi_noise).
Proof.
  assert (H1 : (0 <= attack sample_ten)%Z) by (simpl; lia).
  assert (H2 : (0 <= defense sample_ten)%Z) by (simpl; lia).
  assert (H3 : (0 <= speed sample_ten)%Z) by (simpl; lia).
  split; [exact H1|]. split; [exact H2|]. split; [exact H3|].
  exact (calculate_battle_power_bounds sample_ten _ H1 H2 H3).
Defined.

Lemma calculate_battle_power_type_blind_witness :
  attack sample_ten = attack sample_ten /\
  calculate_battle_power sample_ten {| stub_draws := [half_draw] |}
  = calculate_battle_power
      {| bug_id := 11; nickname := "ant"; attack := 10; defense := 10; speed := 10;
         attack_type := Some "venom"; defense_type := None; size_class := Some "tiny";
         flair := None; wins := WinsClassTuple; losses := 0 |}
      {| stub_draws := [half_draw] |}.
Proof.
  split; [reflexivity|].
  apply calculate_battle_power_type_blind; reflexivity.
Defined.

(** The base of stats 10/10/10 is exactly 47.0; at the largest draw of
    [random()] the noise is exactly [1.1] and the power reaches the
    upper bound, [47.0 * 1.1] = 51.7000000000000028...: the strict
    bound [< 51.7] of the specification's test does not hold in
    binary64. *)
Example calculate_battle_power_top :
  base_power sample_ten == 47 /\
  fst (calculate_battle_power sample_ten {| stub_draws := [top_draw] |})
  == fl (base_power sample_ten * hi_noise) /\
  517 # 10 < fst (calculate_battle_power sample_ten {| stub_draws := [top_draw] |}).
Proof. split; [|split]; qeval. Qed.

End Power.
