(* ===== verification/Battle.v ===== *)
(** * The battle engine ([src/app/routes/battles.py] lines 196-262)

    [simulate_battle(red_corner_bug, blue_corner_bug)] begins (lines
    217-225) by building a [Battle] from the keyword arguments
    [red_corner_bug_id=red_corner_bug.id], [blue_corner_bug_id=...],
    [winner_id=winner.id if winner else None], [narrative=narrative],
    [tournament_id=...] and [round_number=...].  Python evaluates them
    in order: the two attribute reads succeed, and the condition
    [winner] of the third reads a name the function assigns later (lines
    233, 236 and 240), so the compiler makes it a local and the read
    raises [UnboundLocalError] before anything else happens.  No power
    is drawn (lines 228-229 are never reached), no counter moves and
    nothing is added to or committed in the session.  Every call raises,
    whatever the two bugs: the rest of the body (the winner decision of
    lines 232-241, which would raise [NameError] on [bug1] and
    [bug2_power], the counter updates, the commit) is dead code and not
    modelled.

    The session is the record [Session]: the identity map of loaded
    bugs as a stdpp [gmap] from primary key to [Bug], and the committed
    battle rows in insertion order.  The generator state of [Random.v]
    is threaded through [simulate_battle] so that the theorems can say
    that it is not touched. *)

From Stdlib Require Import ZArith QArith String List Lia.
From stdpp Require Import base gmap fin_maps.
From S2P Require Import Prelude Random BugModel.
Import BugModel.

Module Battle.

(** The [Battle] row of [models.py] lines 174-184 ([battle_date] is a
    timestamp the handlers never read and is not modelled). *)
Record BattleRow := {
  battle_key : Z;
  red_corner_bug_id : Z;
  blue_corner_bug__id : Z;
  winner_id : Z;
  narrative : string
}.

Record Session := {
  bugs : gmap Z Bug;
  battles : list BattleRow
}.

Definition empty_session : Session := {| bugs := ∅; battles := [] |}.

(** [Battle.__repr__]:
    [f'<Battle {self.id}: {self.red_corner_bug_id} vs {self.blue_corner_bug__id}>']. *)
Definition battle_repr (r : BattleRow) : string :=
  String.append "<Battle " (String.append (py_str_Z (battle_key r)) (String.append ": "
    (String.append (py_str_Z (red_corner_bug_id r)) (String.append " vs "
      (String.append (py_str_Z (blue_corner_bug__id r)) ">"))))).

Section Engine.
Context {S : Type} `{RandomSource S}.

(** Lines 196-225: the first statement raises at line 220; the
    session and the generator state are returned as they were. *)
Definition simulate_battle (red_corner_bug blue_corner_bug : Bug) (db : Session) (s : S)
  : PyResult (BattleRow * Session) * S :=
  (Raise UnboundLocalError, s).

End Engine.

(** ** Runs on concrete inputs *)

Definition demo_red : Bug :=
  {| bug_id := 1; nickname := "hercules"%string; attack := 60; defense := 70; speed := 20;
     attack_type := Some "crushing"%string; defense_type := Some "hard_shell"%string;
     size_class := Some "large"%string; flair := None; wins := WinsClassTuple; losses := 0 |}.

Definition demo_blue : Bug :=
  {| bug_id := 2; nickname := "tiger"%string; attack := 30; defense := 20; speed := 90;
     attack_type := Some "piercing"%string; defense_type := Some "evasive"%string;
     size_class := Some "small"%string; flair := None; wins := WinsClassTuple; losses := 0 |}.

(** A generator whose draws would give the noise 1.0. *)
Definition demo_state : StubState := {| stub_draws := [half_draw; half_draw] |}.

(** Two bugs and one battle row committed earlier (by another client
    of the database: the engine cannot commit one). *)
Definition demo_row : BattleRow :=
  {| battle_key := 1; red_corner_bug_id := 1; blue_corner_bug__id := 2; winner_id := 1;
     narrative := "hercules wins"%string |}.

Definition demo_db : Session :=
  {| bugs := <[1%Z := demo_red]> (<[2%Z := demo_blue]> ∅); battles := [demo_row] |}.

Example demo_battle_repr : battle_repr demo_row = "<Battle 1: 1 vs 2>"%string.
Proof. reflexivity. Qed.

End Battle.
