(* ===== verification/Routes.v ===== *)
(** * Request handlers of the battles blueprint ([src/app/routes/battles.py] lines 16-60)

    [list_battles] renders one page of ten battle rows, newest first;
    [view_battle] renders one row or answers 404; [new_battle] (behind
    Flask-Login's [login_required]) shows the form on GET and, on POST,
    reads the two bug ids from the form, validates them, loads both bugs
    with [get_or_404], runs [simulate_battle] and would redirect to the
    new battle's page with a flash message.

    A request is its method, its URL (the path and query that
    Flask-Login's [make_next_param] keeps for the [next] argument), its
    query arguments, its form body (werkzeug [MultiDict]s, as lists of
    pairs in the order sent, duplicates kept) and whether the current
    user is authenticated.  A response is a redirect (endpoint and URL
    values), a rendered template with the data passed to it, Flask's
    automatic answer to [OPTIONS] or an HTTP error; flashed messages are
    returned beside it.  The handlers act on the pair (session, generator
    state) of [Battle.v].

    The library behaviour the handlers rely on is written from the
    libraries' code:
    - werkzeug's [MultiDict.get(key, default, type)]: the first value;
      the default when the key is absent or the conversion raises
      [ValueError];
    - Flask's dispatch ([handle]): werkzeug adds [HEAD] to a rule with
      [GET] and Flask adds [OPTIONS] to every rule; a method outside that
      set is answered 405 before any view runs; [OPTIONS] is answered by
      [make_default_options_response] without calling the view; an
      exception leaving a view is answered 404 for [abort(404)] and 500
      otherwise (the debugger of [run.py] also answers 500);
    - Flask-Login's [login_required]: the methods of [EXEMPT_METHODS]
      ([OPTIONS]) pass (and [LOGIN_DISABLED] is taken unset: the
      [config] module is not in the repository); otherwise an anonymous
      user gets
      [unauthorized()], a redirect to the [login_view] ['auth.login'] set
      in [src/app/__init__.py] with [next] set to the request URL, and the
      default flash message in the category ["message"];
    - Flask-SQLAlchemy's [paginate] with [error_out=False]: pages below
      1 are page 1; pages past the end are empty.
    [Battle.battle_date] defaults to the insertion time, so
    [order_by(battle_date.desc())] is the reverse of insertion order.
    Rows committed within the same clock tick are ordered arbitrarily by
    the database; the model fixes that order to the reverse of
    insertion.

    Because [simulate_battle] raises at line 220, a valid submission is
    answered 500 and no request changes the session or the generator;
    the success branch of lines 56-57 is modelled but never taken. *)

From Stdlib Require Import ZArith QArith String List Lia.
From stdpp Require Import base gmap fin_maps.
From S2P Require Import Prelude Random BugModel Battle.
Import BugModel Battle.

Module Routes.

(** ** Requests and responses *)

Record Request := {
  method : string;
  url : string;
  args : list (string * string);
  form : list (string * string);
  is_authenticated : bool
}.

Record Flash := mkFlash { flash_message : string; flash_category : string }.

Inductive Response :=
| Redirect (endpoint : string) (values : list (string * string))
| RenderBattleNew (bugs : list Bug)
| RenderBattleList (page : Z) (items : list BattleRow)
| RenderBattleView (battle : BattleRow)
| OptionsResponse (allow : list string)
| HttpError (code : Z).

(** The status Flask answers for an exception that leaves a view. *)
Definition http_status (e : PyExn) : Z :=
  match e with NotFound => 404 | _ => 500 end.

(** ** Library calls *)

(** werkzeug [MultiDict.get(key, default=default, type=type)]; [type]
    returns [None] where the Python conversion raises [ValueError]. *)
Definition multidict_get {A : Type} (d : list (string * string)) (key : string)
  (default : A) (type : string -> option A) : A :=
  match dict_get String.eqb d key with
  | Some rv => match type rv with Some v => v | None => default end
  | None => default
  end.

(** [request.form.get(key, type=int)]. *)
Definition form_get_int (d : list (string * string)) (key : string) : option Z :=
  multidict_get d key None (fun rv => option_map Some (py_int rv)).

(** [not x] for the value of [form.get(key, type=int)]: [None] and [0]
    are falsy. *)
Definition py_not_int (x : option Z) : bool :=
  match x with None => true | Some z => (z =? 0)%Z end.

(** Flask-SQLAlchemy [paginate(page=page, per_page=per_page,
    error_out=False)]: the rows at offset [(page - 1) * per_page], at most
    [per_page] of them. *)
Definition paginate {A : Type} (items : list A) (page per_page : Z) : Z * list A :=
  let page := if (page <? 1)%Z then 1%Z else page in
  (page, firstn (Z.to_nat per_page) (skipn (Z.to_nat ((page - 1) * per_page)) items)).

(** [Battle.query.order_by(Battle.battle_date.desc())]. *)
Definition battles_newest_first (db : Session) : list BattleRow := rev (battles db).

(** [Bug.query.get_or_404(id)]. *)
Definition get_or_404 (db : Session) (id : Z) : PyResult Bug :=
  match bugs db !! id with Some b => Ok b | None => Raise NotFound end.

(** [Battle.query.get_or_404(battle_id)]: the row with that primary key. *)
Definition battle_get_or_404 (db : Session) (battle_id : Z) : PyResult BattleRow :=
  match find (fun r => (battle_key r =? battle_id)%Z) (battles db) with
  | Some r => Ok r
  | None => Raise NotFound
  end.

(** [battle.winner.nickname]: the relationship loads the bug of
    [winner_id]; reading [nickname] on [None] raises [AttributeError]. *)
Definition winner_nickname (db : Session) (battle : BattleRow) : PyResult string :=
  match bugs db !! winner_id battle with
  | Some w => Ok (nickname w)
  | None => Raise AttributeError
  end.

(** Flask-Login's [EXEMPT_METHODS]. *)
Definition EXEMPT_METHODS : list string := ["OPTIONS"].

(** [login_manager.unauthorized()] for [login_view = 'auth.login']:
    the default [login_message] flashed in [login_message_category],
    and a redirect to the login view with [next] set to the request
    URL. *)
Definition login_redirect (req : Request) : Response * list Flash :=
  (Redirect "auth.login" [("next", url req)],
   [mkFlash "Please log in to access this page." "message"]).

(** ** Handlers *)

(** Lines 18-23. *)
Definition list_battles (req : Request) (db : Session) : Response :=
  let page := multidict_get (args req) "page" 1%Z py_int in
  let '(page, items) := paginate (battles_newest_first db) page 10 in
  RenderBattleList page items.

(** Lines 26-30. *)
Definition view_battle (db : Session) (battle_id : Z) : Response :=
  match battle_get_or_404 db battle_id with
  | Ok battle => RenderBattleView battle
  | Raise e => HttpError (http_status e)
  end.

Definition select_two_bugs : Response * list Flash :=
  (Redirect "battles.new_battle" [], [mkFlash "Please select two bugs" "danger"]).

Definition cannot_battle_itself : Response * list Flash :=
  (Redirect "battles.new_battle" [], [mkFlash "A bug cannot battle itself!" "warning"]).

Section Handlers.
Context {S : Type} `{RandomSource S}.

Definition Out : Type := (Response * list Flash) * (Session * S).

(** Flask-Login's [login_required] wrapper (line 34). *)
Definition login_required (view : Request -> Session * S -> Out) (req : Request)
  (c : Session * S) : Out :=
  if existsb (String.eqb (method req)) EXEMPT_METHODS then view req c
  else if negb (is_authenticated req) then (login_redirect req, c)
  else view req c.

(** Lines 35-60, the body of the view.  The red id is read under the key
    [' red_corner_bug_id'] (with its leading space, as written).  An
    exception raised by [simulate_battle] happens before its commit, so
    the session is left as it was. *)
Definition new_battle_view (req : Request) (c : Session * S) : Out :=
  let '(db, s) := c in
  if String.eqb (method req) "POST" then
    let red_corner_bug_id := form_get_int (form req) " red_corner_bug_id" in
    let blue_corner_bug_id := form_get_int (form req) "blue_corner_bug_id" in
    if py_not_int red_corner_bug_id || py_not_int blue_corner_bug_id then (select_two_bugs, c)
    else
      match red_corner_bug_id, blue_corner_bug_id with
      | Some r, Some b =>
          if (r =? b)%Z then (cannot_battle_itself, c)
          else
            match get_or_404 db r with
            | Raise e => ((HttpError (http_status e), []), c)
            | Ok red_corner_bug =>
                match get_or_404 db b with
                | Raise e => ((HttpError (http_status e), []), c)
                | Ok blue_corner_bug =>
                    match simulate_battle red_corner_bug blue_corner_bug db s with
                    | (Raise e, s') => ((HttpError (http_status e), []), (db, s'))
                    | (Ok (battle, db'), s') =>
                        match winner_nickname db' battle with
                        | Ok n =>
                            ((Redirect "battles.view_battle"
                                [("battle_id", py_str_Z (battle_key battle))],
                              [mkFlash ("Battle complete! " ++ n ++ " wins!") "success"]),
                             (db', s'))
                        | Raise e => ((HttpError (http_status e), []), (db', s'))
                        end
                    end
                end
            end
      | _, _ => (select_two_bugs, c)
      end
  else ((RenderBattleNew (map snd (map_to_list (bugs db))), []), c).

(** Lines 33-60: the view behind [login_required]. *)
Definition new_battle (req : Request) (c : Session * S) : Out :=
  login_required new_battle_view req c.

(** The blueprint's URL map: the rule a request matched, with the
    request. *)
Inductive Call :=
| GetBattles (req : Request)
| GetBattle (battle_id : Z) (req : Request)
| NewBattle (req : Request).

Definition call_request (call : Call) : Request :=
  match call with GetBattles req | GetBattle _ req | NewBattle req => req end.

(** The [methods] of each [@bp.route]: [['GET']] by default, [['GET',
    'POST']] for [/battle/new]; with the [HEAD] werkzeug adds to a rule
    with [GET] and the [OPTIONS] Flask adds to every rule. *)
Definition allowed_methods (call : Call) : list string :=
  match call with
  | NewBattle _ => ["GET"; "POST"; "HEAD"; "OPTIONS"]
  | _ => ["GET"; "HEAD"; "OPTIONS"]
  end.

(** Flask's [full_dispatch_request] for the blueprint. *)
Definition handle (call : Call) (c : Session * S) : Out :=
  let req := call_request call in
  if negb (existsb (String.eqb (method req)) (allowed_methods call)) then
    ((HttpError 405, []), c)
  else if String.eqb (method req) "OPTIONS" then
    ((OptionsResponse (allowed_methods call), []), c)
  else
    match call with
    | GetBattles req => ((list_battles req (fst c), []), c)
    | GetBattle i _ => ((view_battle (fst c) i, []), c)
    | NewBattle req => new_battle req c
    end.

(** A sequence of requests served one after the other. *)
Fixpoint serve (calls : list Call) (c : Session * S) : list (Response * list Flash) * (Session * S) :=
  match calls with
  | [] => ([], c)
  | call :: rest =>
      let '(out, c1) := handle call c in
      let '(outs, c2) := serve rest c1 in
      (out :: outs, c2)
  end.

End Handlers.

(** ** Lemmas *)

(** The lemmas below take the engine's outcome as a hypothesis; [simpl]
    leaves the engine folded. *)
#[local] Arguments simulate_battle : simpl never.

Section Lemmas.
Context {S : Type} `{RandomSource S}.

(** An authenticated user passes [login_required] with every method. *)
Lemma new_battle_authenticated (req : Request) (c : Session * S) :
  is_authenticated req = true -> new_battle req c = new_battle_view req c.
Proof.
  intros Ha. unfold new_battle, login_required. rewrite Ha.
  now destruct (existsb _ EXEMPT_METHODS).
Qed.



(** For an engine that raises and leaves the generator as it was, no
    request changes the state or redirects to a battle page. *)
Lemma handle_untouched (call : Call) (db : Session) (s : S) :
  (forall red blue, exists e, simulate_battle red blue db s = (Raise e, s)) ->
  snd (handle call (db, s)) = (db, s) /\
  forall vs, fst (fst (handle call (db, s))) <> Redirect "battles.view_battle" vs.
Proof.
  intros Hsim. unfold handle, new_battle, login_required, new_battle_view, view_battle, list_battles.
  repeat (match goal with
          | |- context [simulate_battle ?r ?b db s] => destruct (Hsim r b) as [? ->]
          | _ => case_match
          end; simplify_eq/=).
  all: split; [reflexivity | intros ?; discriminate].
Qed.

End Lemmas.

(** ** Theorems *)

Section Claims.
Context {S : Type} `{RandomSource S}.

(** C2 (safety).  Serving any sequence of requests of the blueprint,
    with any methods, users, forms and query strings, leaves the session
    and the generator state exactly as they were, and no answer is a
    redirect to a battle page. *)
Theorem serve_never_writes (calls : list Call) (c : Session * S) :
  snd (serve calls c) = c /\
  forall out vs, In out (fst (serve calls c)) -> fst out <> Redirect "battles.view_battle" vs.
Proof.
  revert c. induction calls as [|call rest IH]; intros [db s]; simpl; [split; [reflexivity | tauto]|].
  destruct (handle_untouched call db s (fun r b => ex_intro _ UnboundLocalError eq_refl))
    as [Hc Hr].
  destruct (handle call (db, s)) as [out c1]. simpl in Hc, Hr. subst c1.
  destruct (IH (db, s)) as [IH1 IH2]. destruct (serve rest (db, s)) as [outs c2]. simpl in *.
  split; [exact IH1|]. intros o vs [<-|Hin]; [apply Hr | exact (IH2 o vs Hin)].
Qed.


(** C3 (error).  Line 38 reads the red id under the key
    [' red_corner_bug_id'] (leading space).  A form without that exact
    key (the form any page naming the field [red_corner_bug_id] sends)
    is always refused with "Please select two bugs", whatever the blue
    id, and nothing changes. *)
Theorem new_battle_red_key_ignored (req : Request) (c : Session * S) :
  is_authenticated req = true -> method req = "POST" ->
  dict_get String.eqb (form req) " red_corner_bug_id" = None ->
  new_battle req c = (select_two_bugs, c).
Proof.
  destruct c. intros Ha Hm Hk. rewrite new_battle_authenticated by exact Ha.
  unfold new_battle_view, form_get_int, multidict_get. rewrite Hm, Hk. reflexivity.
Qed.

(** C4 (error).  The two validation branches of an authenticated POST:
    a red or blue id that is missing, not an integer, or zero redirects
    back with "Please select two bugs" (danger); two equal non-zero ids
    with "A bug cannot battle itself!" (warning).  In both cases the
    session and the generator are untouched. *)
Theorem new_battle_validation (req : Request) (c : Session * S) :
  is_authenticated req = true -> method req = "POST" ->
  ((form_get_int (form req) " red_corner_bug_id" = None \/
    form_get_int (form req) " red_corner_bug_id" = Some 0%Z \/
    form_get_int (form req) "blue_corner_bug_id" = None \/
    form_get_int (form req) "blue_corner_bug_id" = Some 0%Z) ->
   new_battle req c = (select_two_bugs, c)) /\
  (forall k, k <> 0%Z ->
   form_get_int (form req) " red_corner_bug_id" = Some k ->
   form_get_int (form req) "blue_corner_bug_id" = Some k ->
   new_battle req c = (cannot_battle_itself, c)).
Proof.
  destruct c. intros Ha Hm. rewrite new_battle_authenticated by exact Ha.
  unfold new_battle_view. rewrite Hm. simpl String.eqb. cbv iota. split.
  - intros [E|[E|[E|E]]]; rewrite E; [| |rewrite orb_true_r..]; reflexivity.
  - intros k Hk Er Eb. rewrite Er, Eb, Z.eqb_refl. simpl.
    replace (k =? 0)%Z with false by lia. reflexivity.
Qed.

(** C5 (safety).  For an anonymous user the route [/battle/new] never
    reaches the view and changes nothing: [OPTIONS] gets Flask's
    automatic answer listing the route's methods, [GET], [HEAD] and
    [POST] get the redirect to [auth.login] with [next] set to the
    request URL and the login flash, and every other method is answered
    405. *)
Theorem new_battle_route_anonymous (req : Request) (c : Session * S) :
  is_authenticated req = false ->
  snd (handle (NewBattle req) c) = c /\
  (method req = "OPTIONS" ->
   fst (handle (NewBattle req) c) = (OptionsResponse ["GET"; "POST"; "HEAD"; "OPTIONS"], [])) /\
  (In (method req) ["GET"; "HEAD"; "POST"] -> fst (handle (NewBattle req) c) = login_redirect req) /\
  (~ In (method req) ["GET"; "HEAD"; "POST"; "OPTIONS"] ->
   fst (handle (NewBattle req) c) = (HttpError 405, [])).
Proof.
  intros Ha. unfold handle, new_battle, login_required. cbn [call_request allowed_methods].
  destruct (existsb (String.eqb (method req)) ["GET"; "POST"; "HEAD"; "OPTIONS"]) eqn:E;
    simpl negb; cbv iota.
  - apply existsb_eqb_In in E.
    destruct (String.eqb_spec (method req) "OPTIONS") as [Ho|Ho].
    + rewrite Ho. split; [reflexivity|]. split; [reflexivity|].
      split; intros Hin; simpl in Hin; [intuition discriminate | tauto].
    + assert (existsb (String.eqb (method req)) EXEMPT_METHODS = false) as ->
        by (simpl; rewrite orb_false_r; now apply String.eqb_neq).
      rewrite Ha. split; [reflexivity|]. split; [contradiction|].
      split; [reflexivity|]. intros Hn. exfalso. apply Hn. simpl in E |- *. tauto.
  - assert (En : ~ In (method req) ["GET"; "POST"; "HEAD"; "OPTIONS"])
      by (rewrite <- existsb_eqb_In; now rewrite E).
    split; [reflexivity|]. split; [|split].
    + intros Ho. exfalso. apply En. rewrite Ho. simpl. tauto.
    + intros Hin. exfalso. apply En. simpl in Hin |- *. tauto.
    + reflexivity.
Qed.



End Claims.

(** ** Runs on concrete requests *)

Definition post_form (f : list (string * string)) (auth : bool) : Request :=
  {| method := "POST"; url := "/battle/new"; args := []; form := f; is_authenticated := auth |}.

(** A submission with the keys the handler reads: red 1, blue 2. *)
Definition demo_post : Request :=
  post_form [(" red_corner_bug_id", "1"); ("blue_corner_bug_id", "2")] true.

(** The same choice under the field names [red_corner_bug_id] and
    [blue_corner_bug_id]. *)
Definition template_post : Request :=
  post_form [("red_corner_bug_id", "1"); ("blue_corner_bug_id", "2")] true.

Definition self_post : Request :=
  post_form [(" red_corner_bug_id", "1"); ("blue_corner_bug_id", " 1 ")] true.

Definition zero_post : Request :=
  post_form [(" red_corner_bug_id", "1"); ("blue_corner_bug_id", "0")] true.


Definition get_request (path : string) (auth : bool) : Request :=
  {| method := "GET"; url := path; args := []; form := []; is_authenticated := auth |}.

Definition anonymous_get : Request := get_request "/battle/new?x=1" false.

Definition demo_calls : list Call :=
  [NewBattle template_post; NewBattle self_post; NewBattle demo_post; GetBattle 1 (get_request "/battle/1" false);
   GetBattles (get_request "/battles" false); NewBattle anonymous_get].


Lemma new_battle_red_key_ignored_witness :
  dict_get String.eqb (form template_post) " red_corner_bug_id" = None /\
  new_battle template_post (demo_db, demo_state) = (select_two_bugs, (demo_db, demo_state)).
Proof. split; [reflexivity | apply new_battle_red_key_ignored; reflexivity]. Defined.

Lemma new_battle_validation_witness :
  form_get_int (form zero_post) "blue_corner_bug_id" = Some 0%Z /\
  new_battle zero_post (demo_db, demo_state) = (select_two_bugs, (demo_db, demo_state)) /\
  form_get_int (form self_post) "blue_corner_bug_id" = Some 1%Z /\
  new_battle self_post (demo_db, demo_state) = (cannot_battle_itself, (demo_db, demo_state)).
Proof.
  assert (Z0 : form_get_int (form zero_post) "blue_corner_bug_id" = Some 0%Z)
    by (vm_compute; reflexivity).
  assert (S1 : form_get_int (form self_post) "blue_corner_bug_id" = Some 1%Z)
    by (vm_compute; reflexivity).
  split; [exact Z0|]. split.
  - apply (proj1 (new_battle_validation zero_post (demo_db, demo_state) eq_refl eq_refl)).
    right; right; right. exact Z0.
  - split; [exact S1|].
    apply (proj2 (new_battle_validation self_post (demo_db, demo_state) eq_refl eq_refl) 1%Z);
      [lia | vm_compute; reflexivity | exact S1].
Defined.

Lemma new_battle_route_anonymous_witness :
  is_authenticated anonymous_get = false /\
  fst (handle (NewBattle anonymous_get) (demo_db, demo_state)) = login_redirect anonymous_get /\
  fst (handle (NewBattle {| method := "PUT"; url := "/battle/new"; args := []; form := [];
                            is_authenticated := false |}) (demo_db, demo_state)) = (HttpError 405, []).
Proof.
  split; [reflexivity|]. split.
  - apply (proj1 (proj2 (proj2 (new_battle_route_anonymous anonymous_get (demo_db, demo_state)
                                   eq_refl)))).
    simpl. tauto.
  - apply (proj2 (proj2 (proj2 (new_battle_route_anonymous
      {| method := "PUT"; url := "/battle/new"; args := []; form := []; is_authenticated := false |}
      (demo_db, demo_state) eq_refl)))).
    simpl. intuition discriminate.
Defined.



(** The six requests answer: refused, refused, 500, the stored battle,
    the list of one row, the login redirect; the state is unchanged. *)
Example serve_demo :
  map fst (fst (serve demo_calls (demo_db, demo_state))) =
    [fst select_two_bugs; fst cannot_battle_itself; HttpError 500; RenderBattleView demo_row;
     RenderBattleList 1 [demo_row]; Redirect "auth.login" [("next", "/battle/new?x=1")]] /\
  snd (serve demo_calls (demo_db, demo_state)) = (demo_db, demo_state).
Proof. split; vm_compute; reflexivity. Qed.

(** [OPTIONS] is answered without login; [POST] on a battle page is
    405; a page number that is not an integer falls back to page 1. *)
Example handle_methods_demo :
  fst (fst (handle (NewBattle {| method := "OPTIONS"; url := "/battle/new"; args := []; form := [];
                                 is_authenticated := false |}) (demo_db, demo_state)))
    = OptionsResponse ["GET"; "POST"; "HEAD"; "OPTIONS"] /\
  fst (fst (handle (GetBattle 1 (post_form [] true)) (demo_db, demo_state))) = HttpError 405 /\
  list_battles {| method := "GET"; url := "/battles?page=two"; args := [("page", "two")]; form := [];
                  is_authenticated := false |} demo_db = RenderBattleList 1 [demo_row].
Proof. split; [|split]; vm_compute; reflexivity. Qed.

End Routes.
