(* ===== verification/UserModel.v ===== *)
(** * The [User] model ([src/app/models.py] lines 11-34)

    [User] rows carry an id, a username, an email and the stored password
    hash.  [set_password] stores [generate_password_hash(password)] and
    [check_password] calls [check_password_hash(self.password_hash,
    password)]; both functions are werkzeug's, here the methods of the
    class [PasswordHasher] with the laws werkzeug documents: a hash
    verifies the password it was generated from, and (as a property of a
    cryptographic hash, assumed for the model) no other.  Generation
    draws a random salt, so it threads a state like the random source of
    [Random.v].

    [load_user] is the Flask-Login user loader: Flask-Login keeps
    [str(user.get_id())] in the session cookie ([UserMixin.get_id] returns
    [str(self.id)]) and passes it back to [load_user], which calls
    [User.query.get(int(user_id))]; a string that is not an integer
    raises [ValueError]. *)

From Stdlib Require Import ZArith String Ascii List Lia.
From stdpp Require Import base gmap fin_maps.
From S2P Require Import Prelude.

Module UserModel.

Class PasswordHasher (S : Type) := {
  generate_password_hash : string -> S -> string * S;
  check_password_hash : string -> string -> bool
}.

Class PasswordHasherLaws (S : Type) `{PasswordHasher S} := {
  check_generated (password : string) (s : S) :
    check_password_hash (fst (generate_password_hash password s)) password = true;
  check_only_generated (password other : string) (s : S) :
    check_password_hash (fst (generate_password_hash password s)) other = true -> other = password
}.

Record User := mkUser {
  user_id : Z;
  username : string;
  email : string;
  password_hash : option string
}.

Section Methods.
Context {S : Type} `{PasswordHasher S}.

(** [self.password_hash = generate_password_hash(password)]. *)
Definition set_password (u : User) (password : string) (s : S) : User * S :=
  let '(h, s') := generate_password_hash password s in
  ({| user_id := user_id u; username := username u; email := email u; password_hash := Some h |}, s').

(** [check_password_hash(self.password_hash, password)]; werkzeug
    raises [AttributeError] on a [None] hash ([None.split]). *)
Definition check_password (u : User) (password : string) : PyResult bool :=
  match password_hash u with
  | Some h => Ok (check_password_hash h password)
  | None => Raise AttributeError
  end.

(** [__repr__]: [f'<User {self.username}>']. *)
Definition user_repr (u : User) : string := String.append "<User " (String.append (username u) ">").

End Methods.

(** [UserMixin.get_id]: [str(self.id)]. *)
Definition get_id (u : User) : string := py_str_Z (user_id u).

(** [load_user(user_id)]: [User.query.get(int(user_id))]. *)
Definition load_user (users : gmap Z User) (uid : string) : PyResult (option User) :=
  match py_int uid with
  | Some i => Ok (users !! i)
  | None => Raise ValueError
  end.

(** ** Theorems *)

Section Password.
Context {S : Type} `{PasswordHasherLaws S}.

(** After [set_password(password)], [check_password]
    accepts exactly that password, whatever salt was drawn. *)
Theorem check_password_after_set (u : User) (password attempt : string) (s : S) :
  check_password (fst (set_password u password s)) attempt = Ok true <-> attempt = password.
Proof.
  unfold set_password, check_password.
  pose proof (check_generated password s) as Hg.
  pose proof (check_only_generated password attempt s) as Ho.
  destruct (generate_password_hash password s) as [h s']. simpl in *.
  split; [injection 1; auto | intros ->; now rewrite Hg].
Qed.

End Password.

(** The id Flask-Login stores for a user loads that
    user back: [load_user(user.get_id())] is the stored row. *)
Theorem load_user_get_id (users : gmap Z User) (u : User) :
  users !! user_id u = Some u -> load_user users (get_id u) = Ok (Some u).
Proof. intros Hu. unfold load_user, get_id. now rewrite py_int_str, Hu. Qed.

(** ** A toy hasher in werkzeug's ["salt$hash"] layout *)

Fixpoint split_dollar (h : string) : option (string * string) :=
  match h with
  | EmptyString => None
  | String c r =>
      if Ascii.eqb c "$"%char then Some (EmptyString, r)
      else option_map (fun '(a, b) => (String c a, b)) (split_dollar r)
  end.

Fixpoint toy_salt (n : nat) : string :=
  match n with O => EmptyString | S n' => String "s"%char (toy_salt n') end.

#[export] Instance ToyHasher : PasswordHasher nat := {
  generate_password_hash p n := (String.append (toy_salt n) (String "$"%char p), S n);
  check_password_hash h p :=
    match split_dollar h with Some (_, hv) => String.eqb hv p | None => false end
}.

Lemma split_dollar_salt (n : nat) (p : string) :
  split_dollar (String.append (toy_salt n) (String "$"%char p)) = Some (toy_salt n, p).
Proof. induction n as [|n IH]; simpl; [reflexivity|]. now rewrite IH. Qed.

#[export] Instance ToyHasherLaws : PasswordHasherLaws nat.
Proof.
  split; [intros p n | intros p q n]; simpl; rewrite split_dollar_salt.
  - apply String.eqb_refl.
  - intros E. apply String.eqb_eq in E. now symmetry.
Qed.

Definition demo_user : User :=
  {| user_id := 7; username := "ada"; email := "ada@example.org"; password_hash := None |}.

Lemma check_password_after_set_witness :
  check_password (fst (set_password demo_user "hunter2" 3%nat)) "hunter2" = Ok true.
Proof. apply (check_password_after_set demo_user "hunter2" "hunter2" 3%nat). reflexivity. Defined.

Lemma load_user_get_id_witness :
  (<[7%Z := demo_user]> ∅ : gmap Z User) !! user_id demo_user = Some demo_user /\
  load_user (<[7%Z := demo_user]> ∅) (get_id demo_user) = Ok (Some demo_user).
Proof.
  assert (H : (<[7%Z := demo_user]> ∅ : gmap Z User) !! user_id demo_user = Some demo_user)
    by reflexivity.
  split; [exact H | exact (load_user_get_id _ _ H)].
Defined.

(** A user without a stored hash makes [check_password] raise; a cookie
    that is not an integer makes [load_user] raise [ValueError]. *)
Example check_password_unset : check_password demo_user "x" = Raise AttributeError.
Proof. reflexivity. Qed.

Example load_user_garbage : load_user (<[7%Z := demo_user]> ∅) "7a" = Raise ValueError.
Proof. reflexivity. Qed.

End UserModel.
