(* ===== verification/Species.v ===== *)
(** * The [Species] model ([src/app/models.py] lines 129-172)

    As written, the class body does not parse (line 144 is indented
    deeper than the block it continues) and [db.Integer(5)] (lines
    140-141) passes a length that [Integer] does not take, so
    [models.py] never loads.  The model is the class as it would run once
    it loads: its columns (the [bugs] relationship left out) and
    [add_to_dict], which builds a nested dict literal.  Python evaluates the literal's values left to right, and
    the fourth one reads [self.order], an attribute the class does not
    have: the method raises [AttributeError] for every species, before
    reading [family] or the traits. *)

From Stdlib Require Import ZArith String List.
From S2P Require Import Prelude.
Import ListNotations.

Module Species.

Open Scope string_scope.
Open Scope py_scope.

Record Species := {
  species_id : Z;
  scientific_name : option string;
  common_name : option string;
  genus : option string;
  family : option string;
  species : option string;
  descrition : option string;
  habitat : option string;
  diet : option string;
  avg_size : option Z;
  avg_weight : option Z;
  has_venom : bool;
  has_pincers : bool;
  has_stinger : bool;
  can_fly : bool;
  has_armor : bool;
  gbif_id : option string;
  inaturalist_id : option string;
  wikipedia_url : option string;
  data_source : option string
}.

(** The Python values a row's attributes and the dict hold. *)
Inductive PyValue :=
| PyNone
| PyInt (z : Z)
| PyStr (s : string)
| PyBool (b : bool)
| PyDict (entries : list (string * PyValue)).

Definition of_str (o : option string) : PyValue :=
  match o with Some s => PyStr s | None => PyNone end.

Definition of_int (o : option Z) : PyValue :=
  match o with Some z => PyInt z | None => PyNone end.

(** [getattr(species, name)] on the columns of lines 131-154. *)
Definition species_getattr (sp : Species) (name : string) : PyResult PyValue :=
  match dict_get String.eqb
    [("id", PyInt (species_id sp)); ("scientific_name", of_str (scientific_name sp));
     ("common_name", of_str (common_name sp)); ("genus", of_str (genus sp));
     ("family", of_str (family sp)); ("species", of_str (species sp));
     ("descrition", of_str (descrition sp)); ("habitat", of_str (habitat sp));
     ("diet", of_str (diet sp)); ("avg_size", of_int (avg_size sp));
     ("avg_weight", of_int (avg_weight sp)); ("has_venom", PyBool (has_venom sp));
     ("has_pincers", PyBool (has_pincers sp)); ("has_stinger", PyBool (has_stinger sp));
     ("can_fly", PyBool (can_fly sp)); ("has_armor", PyBool (has_armor sp));
     ("gbif_id", of_str (gbif_id sp)); ("inaturalist_id", of_str (inaturalist_id sp));
     ("wikipedia_url", of_str (wikipedia_url sp)); ("data_source", of_str (data_source sp))]
    name with
  | Some v => Ok v
  | None => Raise AttributeError
  end.

(** [add_to_dict], its values evaluated in the order of the literal. *)
Definition add_to_dict (sp : Species) : PyResult PyValue :=
  id <- species_getattr sp "id" ;;
  sn <- species_getattr sp "scientific_name" ;;
  cn <- species_getattr sp "common_name" ;;
  order <- species_getattr sp "order" ;;
  fam <- species_getattr sp "family" ;;
  hv <- species_getattr sp "has_venom" ;;
  hp <- species_getattr sp "has_pincers" ;;
  hs <- species_getattr sp "has_stinger" ;;
  cf <- species_getattr sp "can_fly" ;;
  ha <- species_getattr sp "has_armor" ;;
  Ok (PyDict [("id", id); ("scientific_name", sn); ("common_name", cn); ("order", order);
              ("family", fam);
              ("characteristics", PyDict [("has_venom", hv); ("has_pincers", hp);
                                          ("has_stinger", hs); ("can_fly", cf);
                                          ("has_armor", ha)])]).

(** [add_to_dict] raises [AttributeError] on [self.order] for every
    species. *)
Lemma add_to_dict_raises (sp : Species) : add_to_dict sp = Raise AttributeError.
Proof. reflexivity. Qed.

End Species.
