(* ===== verification/Main.v ===== *)
(** * Homepage and dashboard ([src/app/routes/main.py])

    The blueprint [bp] routes [/] to [index] and [/dashboard] to
    [dashboard].  [index] runs the query of the five most recent
    battles (line 20), then builds [desc(Bug.wins)] (line 23).  Because
    of the trailing comma of [models.py] line 87, the class attribute
    [Bug.wins] is the tuple [(Column(...),)], which SQLAlchemy's
    declarative scan ignores as a column; [desc] of a tuple raises
    [sqlalchemy.exc.ArgumentError].  So the homepage fails at line 23 in
    every environment, before the unbound [submission_date] of line 25.
    [dashboard] counts bugs, users and battles, reads [Tournament.query]
    at line 48 (unbound: [NameError]), and with a [Tournament] model in
    scope computes the highest attack, defense and speed and then reads
    [Bug.HP] at line 54: [Bug] has [health] but no [HP], so the class
    attribute lookup raises [AttributeError] and lines 56-71 are never
    reached.  The handlers are written over an environment [MainEnv]
    saying whether [Tournament] is bound; [repository_main_env] is this
    repository's.  The queries are read-only. *)

From Stdlib Require Import ZArith String List Lia.
From stdpp Require Import base gmap fin_maps.
From S2P Require Import Prelude BugModel Battle Routes.
Import BugModel Battle Routes.

Module Main.

(** [Battle.query.order_by(desc(Battle.battle_date)).limit(n).all()]. *)
Definition recent_battles (db : Session) (n : nat) : list BattleRow :=
  firstn n (battles_newest_first db).

(** The page [render_template('index.html', battles=..., top_bugs=...)]
    would render (lines 27-29). *)
Inductive MainPage :=
| RenderIndex (battles : list BattleRow) (top_bugs : list Bug).

(** The one name the dashboard reads that [main.py] neither defines
    nor imports (its imports, lines 4-7, bind [Blueprint],
    [render_template], [db], [Bug], [Battle], [User], [desc] and
    [func]): the row count of a [Tournament] model, if one is in
    scope. *)
Record MainEnv := { tournament_count : option Z }.

(** In this repository [Tournament] is not bound. *)
Definition repository_main_env : MainEnv := {| tournament_count := None |}.

(** Lines 11-25: the recent battles; [desc(Bug.wins)] raises on the
    tuple attribute; on a mapped column the top-bugs query would run and
    the call [submission_date(Bug)] of line 25 raise [NameError]. *)
Definition index_in (env : MainEnv) (db : Session) : PyResult MainPage :=
  let recent := recent_battles db 5 in
  match Bug_wins_attr with
  | TupleOfColumn => Raise ArgumentError
  | ColumnAttr => Raise NameError
  end.

Definition index (db : Session) : PyResult MainPage := index_in repository_main_env db.

(** [db.session.query(func.max(col)).scalar() or 0]: [MAX] over the
    bug rows, [None] on an empty table, and [None or 0] is [0]. *)
Definition max_or_0 (f : Bug -> Z) (db : Session) : Z :=
  match map f (map snd (map_to_list (bugs db))) with
  | [] => 0
  | x :: xs => fold_left Z.max xs x
  end.

(** Lines 32-54: the bug and battle counts (the user count reads the
    [User] table, which the session does not hold), [Tournament.query]
    (line 48), the three maxima (lines 51-53), then [Bug.HP] (line 54). *)
Definition dashboard_in (env : MainEnv) (db : Session) : PyResult MainPage :=
  let total_bugs := Z.of_nat (map_size (bugs db)) in
  let total_battles := Z.of_nat (length (battles db)) in
  match tournament_count env with
  | None => Raise NameError
  | Some total_tournaments =>
      let max_attack := max_or_0 attack db in
      let max_defense := max_or_0 defense db in
      let max_speed := max_or_0 speed db in
      Raise AttributeError
  end.

Definition dashboard (db : Session) : PyResult MainPage := dashboard_in repository_main_env db.

(** [bp = Blueprint('main', __name__)] with [@bp.route('/')] and
    [@bp.route('/dashboard')]: a path outside the blueprint is a 404. *)
Inductive MainView := Index | Dashboard.

Definition url_map : list (string * MainView) := [("/"%string, Index); ("/dashboard"%string, Dashboard)].

Definition dispatch (env : MainEnv) (path : string) (db : Session) : PyResult MainPage :=
  match dict_get String.eqb url_map path with
  | Some Index => index_in env db
  | Some Dashboard => dashboard_in env db
  | None => Raise NotFound
  end.

(** ** Lemmas *)

Lemma fold_left_max_bounds (xs : list Z) (x : Z) :
  (x <= fold_left Z.max xs x)%Z /\ (forall y, In y xs -> (y <= fold_left Z.max xs x)%Z) /\
  (fold_left Z.max xs x = x \/ In (fold_left Z.max xs x) xs).
Proof.
  revert x. induction xs as [|y xs IH]; intros x; simpl; [split; [lia|split; [tauto|auto]]|].
  destruct (IH (Z.max x y)) as (H1 & H2 & H3). split; [lia|split].
  - intros z [<-|Hz]; [lia|auto].
  - destruct H3 as [H3|H3]; [|auto]. rewrite H3.
    destruct (Z.max_spec x y) as [[_ E]|[_ E]]; rewrite E; [right; left; reflexivity | left; reflexivity].
Qed.

(** The maxima the dashboard computes (lines 51-53): at least the column
    of every bug, attained by some bug, and 0 on an empty table. *)
Lemma max_or_0_spec (f : Bug -> Z) (db : Session) :
  (forall i b, bugs db !! i = Some b -> (f b <= max_or_0 f db)%Z) /\
  (bugs db = ∅ -> max_or_0 f db = 0%Z) /\
  (bugs db <> ∅ -> exists i b, bugs db !! i = Some b /\ f b = max_or_0 f db).
Proof.
  unfold max_or_0.
  assert (Hin : forall y, In y (map f (map snd (map_to_list (bugs db))))
                          <-> exists i b, bugs db !! i = Some b /\ f b = y).
  { intros y. rewrite map_map, in_map_iff. split.
    - intros ([i b] & <- & Hb). exists i, b. split; [|reflexivity].
      apply elem_of_map_to_list, list_elem_of_In, Hb.
    - intros (i & b & Hb & <-). exists (i, b). split; [reflexivity|].
      apply list_elem_of_In, elem_of_map_to_list, Hb. }
  destruct (map f (map snd (map_to_list (bugs db)))) as [|x xs] eqn:E.
  - split; [|split; [reflexivity|]].
    + intros i b Hb. destruct (proj2 (Hin (f b)) (ex_intro _ i (ex_intro _ b (conj Hb eq_refl)))).
    + intros Hne. exfalso. apply Hne. apply map_eq_nil, map_eq_nil in E.
      now apply map_to_list_empty_iff.
  - destruct (fold_left_max_bounds xs x) as (H1 & H2 & H3). split; [|split].
    + intros i b Hb. destruct (proj2 (Hin (f b)) (ex_intro _ i (ex_intro _ b (conj Hb eq_refl))))
        as [<-|Hy]; [exact H1 | exact (H2 _ Hy)].
    + intros He. rewrite He, map_to_list_empty in E. discriminate.
    + intros _. apply Hin. destruct H3 as [->|H3]; [left; reflexivity | right; exact H3].
Qed.

(** ** Theorems *)


(** ** Runs on concrete sessions *)

(** The homepage fails after reading the recent battles; with a
    [Tournament] model supplied the dashboard still fails at [Bug.HP]
    after computing hercules' attack 60 as the highest; an unknown path
    is a 404. *)
Example dispatch_demo :
  let env := {| tournament_count := Some 0%Z |} in
  recent_battles demo_db 5 = [demo_row] /\
  dispatch env "/"%string demo_db = Raise ArgumentError /\
  dispatch env "/dashboard"%string demo_db = Raise AttributeError /\
  dispatch env "/admin"%string demo_db = Raise NotFound /\
  max_or_0 attack demo_db = 60%Z.
Proof. vm_compute. repeat split. Qed.

End Main.
