(* ===== verification/AppFactory.v ===== *)
(** * Application factory and entry point ([src/app/__init__.py], [src/run.py])

    [run.py] imports the package [app] (whose [__init__.py] imports
    Flask, Flask-SQLAlchemy, Flask-Login, [config] and [os]), calls
    [create_app()], creates the tables, prints "Database initialized!"
    and serves on [0.0.0.0:6000] in debug mode.  [create_app] loads the
    configuration, sets [login_manager.login_view = 'auth.login'],
    creates the upload folder, imports [app.models] and the four route
    modules, and registers their blueprints.

    Python's import system is modelled by an environment listing the
    modules that can be found, each either importable or failing with a
    [SyntaxError] when its source does not parse; a module that cannot be
    found raises [ImportError].  A module of the repository that parses
    runs its own import lines ([models.py] 6-9, [main.py] 4-7,
    [battles.py] 10-14) before the rest of its body; the package [app]
    itself is already in [sys.modules] when they run.  The world the
    entry point acts on holds the directories, the printed lines,
    whether the tables exist and the server started, if any.  [repository_env] is the environment this
    repository provides: the third-party packages are assumed installed,
    as are the standard library's [os], [datetime] and [random];
    [config], [app.routes.auth] and [app.routes.bugs] are absent, and
    [app.models] (line 144) and [app.routes.battles] (line 39) are
    indented inconsistently. *)

From Stdlib Require Import ZArith String List Lia.
From S2P Require Import Prelude.
Import ListNotations.

Module AppFactory.

Open Scope string_scope.
Open Scope py_scope.

Inductive ModuleStatus := Importable | SyntaxBroken.

(** [import m]. *)
Definition py_import (env : list (string * ModuleStatus)) (m : string) : PyResult unit :=
  match dict_get String.eqb env m with
  | Some Importable => Ok tt
  | Some SyntaxBroken => Raise SyntaxError
  | None => Raise ImportError
  end.

(** [config.Config]: only [UPLOAD_FOLDER] is read. *)
Record Config := { upload_folder : option string }.

Record App := {
  app_config : Config;
  login_view : string;
  blueprints : list string
}.

Record World := {
  dirs : list string;
  stdout : list string;
  tables_created : bool;
  serving : option (App * string * Z * bool)
}.

(** [os.makedirs(path, exist_ok=True)]. *)
Definition makedirs (path : string) (wd : World) : World :=
  {| dirs := if existsb (String.eqb path) (dirs wd) then dirs wd else dirs wd ++ [path];
     stdout := stdout wd; tables_created := tables_created wd; serving := serving wd |}.

(** Lines 1-8 of [__init__.py], run by the first [import app]. *)
Definition import_app (env : list (string * ModuleStatus)) : PyResult unit :=
  _ <- py_import env "flask" ;;
  _ <- py_import env "flask_sqlalchemy" ;;
  _ <- py_import env "flask_login" ;;
  _ <- py_import env "config" ;;
  py_import env "os".

Definition route_modules : list string :=
  ["app.routes.main"; "app.routes.auth"; "app.routes.bugs"; "app.routes.battles"].

(** The import statements at the top of the repository's modules,
    without [from app import ...]: the package [app] is in [sys.modules]
    from line 7 of [__init__.py] on, with [db] and [login_manager]
    bound.  [models.py] lines 6-9: *)
Definition models_imports : list string :=
  ["datetime"; "flask_login"; "werkzeug.security"].

(** [main.py] lines 4-7: *)
Definition main_imports : list string := ["flask"; "app.models"; "sqlalchemy"].

(** [battles.py] lines 10-14: *)
Definition battles_imports : list string := ["flask"; "flask_login"; "app.models"; "random"].

Definition module_imports (m : string) : list string :=
  if String.eqb m "app.models" then models_imports
  else if String.eqb m "app.routes.main" then main_imports
  else if String.eqb m "app.routes.battles" then battles_imports
  else [].

(** Importing one of the repository's modules: it must be found and
    parse, then its body runs its own imports in order.  A module
    already in [sys.modules] ([app.models] once the factory imported
    it) is found again with the same status. *)
Definition import_module (env : list (string * ModuleStatus)) (m : string) : PyResult unit :=
  _ <- py_import env m ;;
  fold_right (fun d k => _ <- py_import env d ;; k) (Ok tt) (module_imports m).

(** [from app.routes import main, auth, bugs, battles], in that order. *)
Fixpoint import_all (env : list (string * ModuleStatus)) (ms : list string) : PyResult unit :=
  match ms with
  | [] => Ok tt
  | m :: ms' => _ <- import_module env m ;; import_all env ms'
  end.

(** [create_app(config_class=Config)], lines 10-30; the upload folder
    exists before the imports run, whatever they raise. *)
Definition create_app (env : list (string * ModuleStatus)) (cfg : Config) (wd : World)
  : PyResult App * World :=
  match upload_folder cfg with
  | None => (Raise KeyError, wd)
  | Some folder =>
      let wd := makedirs folder wd in
      (_ <- import_module env "app.models" ;;
       _ <- import_all env route_modules ;;
       Ok {| app_config := cfg; login_view := "auth.login";
             blueprints := ["main"; "auth"; "bugs"; "battles"] |}, wd)
  end.

(** Lines 1-12 of [run.py]: the imports, [create_app()], the tables
    and the message. *)
Definition run_script (env : list (string * ModuleStatus)) (cfg : Config) (wd : World)
  : PyResult App * World :=
  match import_app env with
  | Raise e => (Raise e, wd)
  | Ok _ =>
      match create_app env cfg wd with
      | (Raise e, wd') => (Raise e, wd')
      | (Ok app, wd') =>
          (Ok app,
           {| dirs := dirs wd'; stdout := stdout wd' ++ ["Database initialized!"];
              tables_created := true; serving := serving wd' |})
      end
  end.

(** [run.py] executed as the main module.  Line 17,
    [app.run(host='0.0.0.0', port=6000, debug=True)], turns the
    reloader on: the first process does not serve, it starts a child
    that runs [run.py] again from the top (with [WERKZEUG_RUN_MAIN]
    set), on the same files, database and terminal, and the child
    serves. *)
Definition run_py (env : list (string * ModuleStatus)) (cfg : Config) (wd : World)
  : PyResult unit * World :=
  match run_script env cfg wd with
  | (Raise e, wd1) => (Raise e, wd1)
  | (Ok _, wd1) =>
      match run_script env cfg wd1 with
      | (Raise e, wd2) => (Raise e, wd2)
      | (Ok app, wd2) =>
          (Ok tt,
           {| dirs := dirs wd2; stdout := stdout wd2; tables_created := tables_created wd2;
              serving := Some (app, "0.0.0.0", 6000%Z, true) |})
      end
  end.

Definition repository_env : list (string * ModuleStatus) :=
  [("flask", Importable); ("flask_sqlalchemy", Importable); ("flask_login", Importable);
   ("os", Importable); ("datetime", Importable); ("werkzeug.security", Importable);
   ("sqlalchemy", Importable); ("random", Importable); ("app.models", SyntaxBroken);
   ("app.routes.main", Importable); ("app.routes.battles", SyntaxBroken)].

(** Every module the application imports. *)
Definition required_modules : list string :=
  ["flask"; "flask_sqlalchemy"; "flask_login"; "config"; "os"; "app.models"] ++ route_modules
  ++ models_imports ++ main_imports ++ battles_imports.

Definition env_complete (env : list (string * ModuleStatus)) : Prop :=
  Forall (fun m => py_import env m = Ok tt) required_modules.

(** ** Lemmas *)

Lemma import_deps_ok (env : list (string * ModuleStatus)) (ds : list string) :
  Forall (fun m => py_import env m = Ok tt) ds ->
  fold_right (fun d k => _ <- py_import env d ;; k) (Ok tt) ds = Ok tt.
Proof. induction 1 as [|m ms Hm _ IH]; simpl; [reflexivity|]. now rewrite Hm. Qed.

(** With every required module importable, each of the repository's
    modules imports. *)
Lemma import_module_ok (env : list (string * ModuleStatus)) (m : string) :
  env_complete env -> In m ("app.models" :: route_modules) -> import_module env m = Ok tt.
Proof.
  unfold env_complete. intros Henv Hm. rewrite List.Forall_forall in Henv.
  unfold import_module. rewrite Henv by (unfold required_modules; rewrite !in_app_iff;
    destruct Hm as [<-|[<-|[<-|[<-|[<-|[]]]]]]; simpl; tauto).
  cbn [py_bind]. apply import_deps_ok, List.Forall_forall. intros d Hd. apply Henv.
  unfold required_modules. rewrite !in_app_iff.
  destruct Hm as [<-|[<-|[<-|[<-|[<-|[]]]]]].
  - do 2 right. left. exact Hd.
  - do 3 right. left. exact Hd.
  - unfold module_imports in Hd. simpl in Hd. destruct Hd.
  - unfold module_imports in Hd. simpl in Hd. destruct Hd.
  - do 4 right. exact Hd.
Qed.

Lemma import_all_ok (env : list (string * ModuleStatus)) (ms : list string) :
  env_complete env -> incl ms route_modules -> import_all env ms = Ok tt.
Proof.
  intros Henv. induction ms as [|m ms IH]; intros Hincl; simpl; [reflexivity|].
  rewrite (import_module_ok env m Henv) by (right; apply Hincl; now left).
  apply IH. intros x Hx. apply Hincl. now right.
Qed.

(** With every module it needs and an upload folder, [run.py] creates
    the folder and the tables, prints "Database initialized!" twice (once
    in the first process, once in the reloader's child) and serves the
    four blueprints on [0.0.0.0:6000] in debug mode, with the login view
    ['auth.login'] that [login_required] redirects to.  No such
    environment exists for this repository ([run_py_repository]). *)
Lemma run_py_complete (cfg : Config) (wd : World) (env : list (string * ModuleStatus))
    (folder : string) :
  env_complete env -> upload_folder cfg = Some folder ->
  exists app,
    run_py env cfg wd =
      (Ok tt, {| dirs := dirs (makedirs folder wd);
                 stdout := stdout wd ++ ["Database initialized!"; "Database initialized!"];
                 tables_created := true; serving := Some (app, "0.0.0.0", 6000%Z, true) |}) /\
    blueprints app = ["main"; "auth"; "bugs"; "battles"] /\ login_view app = "auth.login".
Proof.
  intros Henv Hf.
  pose proof (import_all_ok env route_modules Henv (incl_refl _)) as Hr.
  pose proof (import_module_ok env "app.models" Henv (or_introl eq_refl)) as Hm.
  unfold env_complete, required_modules in Henv. simpl in Henv.
  repeat match goal with H : Forall _ (_ :: _) |- _ => apply Forall_cons_iff in H as [? H] end.
  unfold run_py, run_script, import_app, create_app. rewrite Hf.
  repeat match goal with H : py_import env _ = Ok tt |- _ => rewrite H; clear H end.
  cbn [py_bind]. rewrite Hm. cbn [py_bind]. rewrite Hr. cbn [py_bind]. simpl.
  assert (Hin : existsb (String.eqb folder) (dirs (makedirs folder wd)) = true).
  { apply existsb_eqb_In. unfold makedirs. simpl.
    destruct (existsb (String.eqb folder) (dirs wd)) eqn:E; [now apply existsb_eqb_In|].
    apply in_or_app. right. now left. }
  simpl in Hin. rewrite Hin.
  eexists. split; [simpl; now rewrite <- app_assoc | split; reflexivity].
Qed.

Definition complete_env : list (string * ModuleStatus) :=
  map (fun m => (m, Importable)) required_modules.

Definition empty_world : World := {| dirs := []; stdout := []; tables_created := false; serving := None |}.

(** In this repository [run.py] raises [ImportError] on
    [from config import Config] before doing anything. *)
Example run_py_repository :
  run_py repository_env {| upload_folder := Some "uploads" |} empty_world
  = (Raise ImportError, empty_world).
Proof. reflexivity. Qed.

Example run_py_complete_demo :
  stdout (snd (run_py complete_env {| upload_folder := Some "uploads" |} empty_world))
  = ["Database initialized!"; "Database initialized!"].
Proof. vm_compute. reflexivity. Qed.

(** With [config] supplied but the sources as they are, the factory
    stops at [from app import models] with the indentation error of
    [models.py], after creating the upload folder. *)
Example create_app_models_broken :
  create_app (("config", Importable) :: repository_env) {| upload_folder := Some "uploads" |} empty_world
  = (Raise SyntaxError, makedirs "uploads" empty_world).
Proof. reflexivity. Qed.

End AppFactory.
